(** * Landing page designer: configuration store, token substitution,
      preview renderer, feedback state machine and contact-card export.

    A shallow embedding of [src/components/landing-page-designer.tsx] and
    [src/app/page.tsx].  JavaScript strings are modelled by [string] (a
    sequence of code units), object literals used as lookup tables by
    [gmap string _] together with the properties every object literal
    inherits from [Object.prototype], and React state by explicit state
    passing with a trace of the effects a handler performs. *)

From Stdlib Require Import String Ascii List Bool Arith ZArith Lia.
From stdpp Require Import base strings gmap.
Import ListNotations.

Local Open Scope string_scope.

(* ===================================================================== *)
(** * Part I: definitions                                                 *)
(* ===================================================================== *)

(* --------------------------------------------------------------------- *)
(** ** JavaScript values reaching the substitution callback               *)
(* --------------------------------------------------------------------- *)

(** The values a property read on an object literal of strings can yield:
    an own string, a built-in function or the prototype object itself
    (both inherited from [Object.prototype]), or [undefined]. *)
Inductive js_value : Type :=
  | JsString (s : string)
  | JsNativeFunction (name : string)
  | JsObjectPrototype
  | JsUndefined.

(** [ToBoolean]: the empty string and [undefined] are falsy, every object
    (functions included) is truthy. *)
Definition ToBoolean (v : js_value) : bool :=
  match v with
  | JsString "" => false
  | JsString _ => true
  | JsNativeFunction _ => true
  | JsObjectPrototype => true
  | JsUndefined => false
  end.

(** [ToString].  ECMAScript fixes the shape of a built-in function's source
    text ([function name() { [native code] }], white space left to the
    engine; the spacing below is V8's) and the text of a plain object. *)
Definition ToString (v : js_value) : string :=
  match v with
  | JsString s => s
  | JsNativeFunction name => "function " +:+ name +:+ "() { [native code] }"
  | JsObjectPrototype => "[object Object]"
  | JsUndefined => "undefined"
  end.

(** [a || b] *)
Definition js_or (a b : js_value) : js_value :=
  if ToBoolean a then a else b.

(** The properties of [Object.prototype], as read through an object literal
    whose prototype it is: the standard methods, [constructor] (the
    function named [Object]) and the legacy accessor [__proto__], whose
    getter returns the prototype object. *)
Definition object_prototype_methods : list string :=
  [ "hasOwnProperty"; "isPrototypeOf"; "propertyIsEnumerable";
    "toLocaleString"; "toString"; "valueOf";
    "__defineGetter__"; "__defineSetter__";
    "__lookupGetter__"; "__lookupSetter__" ].

Definition object_prototype_get (key : string) : js_value :=
  if String.eqb key "constructor" then JsNativeFunction "Object"
  else if String.eqb key "__proto__" then JsObjectPrototype
  else if existsb (String.eqb key) object_prototype_methods
       then JsNativeFunction key
  else JsUndefined.

(** [obj[key]] on an object literal with own string properties [own]: the
    own property if there is one, else the prototype's. *)
Definition get_property (own : gmap string string) (key : string) : js_value :=
  match own !! key with
  | Some v => JsString v
  | None => object_prototype_get key
  end.

(* --------------------------------------------------------------------- *)
(** ** Dynamic field substitution ([renderDynamicText])                   *)
(* --------------------------------------------------------------------- *)

(** The sample table of the replace callback. *)
Definition sampleData : gmap string string :=
  {[ "first-name" := "Sarah";
     "last-name" := "Johnson";
     "company" := "Acme Corp";
     "gift-name" := "Premium Package" ]}.

(** The callback [(match, field) => sampleData[field] || `[${field}]`];
    [String.prototype.replace] converts what it returns to a string. *)
Definition replacer (field : string) : string :=
  ToString (js_or (get_property sampleData field)
                  (JsString ("[" +:+ field +:+ "]"))).

(** The longest prefix of characters other than the closing brace, and what
    follows it: the greedy run of the class [[^}]]. *)
Fixpoint span_name (s : string) : string * string :=
  match s with
  | EmptyString => (EmptyString, EmptyString)
  | String c s' =>
      if Ascii.eqb c "}" then (EmptyString, s)
      else let '(name, rest) := span_name s' in (String c name, rest)
  end.

(** [s] without its first two characters, when they are [a] and [b]. *)
Definition strip_pair (a b : ascii) (s : string) : option string :=
  match s with
  | String x (String y rest) =>
      if Ascii.eqb x a && Ascii.eqb y b then Some rest else None
  | _ => None
  end.

(** One attempt of the pattern [\{\{([^}]+)\}\}] anchored at the head of
    [s]: the captured group and the text after the match.  The run [[^}]+]
    cannot be shortened by backtracking, since the character after a
    shortened run is not a closing brace, so the greedy run decides. *)
Definition match_token (s : string) : option (string * string) :=
  match strip_pair "{" "{" s with
  | None => None
  | Some body =>
      let '(name, after) := span_name body in
      match name, strip_pair "}" "}" after with
      | String _ _, Some rest => Some (name, rest)
      | _, _ => None
      end
  end.

(** [text.replace(/.../g, callback)]: at each position, replace a match and
    resume after it, or copy one character.  A match is never empty, so
    [fuel] equal to the length of the text is enough. *)
Fixpoint replace_tokens (callback : string -> string) (fuel : nat) (s : string)
  : string :=
  match fuel with
  | O => s
  | S fuel' =>
      match match_token s with
      | Some (field, rest) =>
          callback field +:+ replace_tokens callback fuel' rest
      | None =>
          match s with
          | EmptyString => EmptyString
          | String c s' => String c (replace_tokens callback fuel' s')
          end
      end
  end.

Definition renderDynamicText (text : string) : string :=
  replace_tokens replacer (String.length text) text.

(** The same replace over the description's markup. *)
Definition renderRichTextWithDynamicFields (htmlContent : string) : string :=
  replace_tokens replacer (String.length htmlContent) htmlContent.

(** Does the pattern match anywhere in [s]? *)
Fixpoint has_token (s : string) : bool :=
  match match_token s with
  | Some _ => true
  | None =>
      match s with
      | EmptyString => false
      | String _ s' => has_token s'
      end
  end.

(** No closing brace occurs in [s]. *)
Fixpoint close_free (s : string) : bool :=
  match s with
  | EmptyString => true
  | String c s' => negb (Ascii.eqb c "}") && close_free s'
  end.

(** No opening brace occurs in [s]. *)
Fixpoint open_free (s : string) : bool :=
  match s with
  | EmptyString => true
  | String c s' => negb (Ascii.eqb c "{") && open_free s'
  end.

(** The pattern read declaratively: [s] opens with a token named [field]
    and goes on with [rest]. *)
Definition token_at (s field rest : string) : Prop :=
  s = "{{" +:+ field +:+ "}}" +:+ rest /\ field <> "" /\ close_free field = true.

Definition contains_token (s : string) : Prop :=
  exists pre field rest,
    s = pre +:+ "{{" +:+ field +:+ "}}" +:+ rest
    /\ field <> "" /\ close_free field = true.

(** The spec's reading of a token, kept apart from the code's: the text
    between the first occurrence of the opening pair and the next occurrence
    of the closing pair, resolved through the fixed table, unknown names in
    brackets. *)
Fixpoint split_at_pair (a b : ascii) (s : string) : option (string * string) :=
  match s with
  | EmptyString => None
  | String c s' =>
      match s' with
      | EmptyString => None
      | String d rest =>
          if Ascii.eqb c a && Ascii.eqb d b then Some (EmptyString, rest)
          else match split_at_pair a b s' with
               | Some (pre, post) => Some (String c pre, post)
               | None => None
               end
      end
  end.

Definition spec_resolve (name : string) : string :=
  match sampleData !! name with
  | Some v => v
  | None => "[" +:+ name +:+ "]"
  end.

Fixpoint spec_substitute_fuel (fuel : nat) (s : string) : string :=
  match fuel with
  | O => s
  | S fuel' =>
      match split_at_pair "{" "{" s with
      | None => s
      | Some (pre, after) =>
          match split_at_pair "}" "}" after with
          | None => s
          | Some (name, rest) =>
              pre +:+ spec_resolve name +:+ spec_substitute_fuel fuel' rest
          end
      end
  end.

Definition spec_substitute (s : string) : string :=
  spec_substitute_fuel (String.length s) s.

(** Does [s] hold a token in the spec's reading: an opening pair with a
    closing pair somewhere behind it? *)
Definition spec_has_token (s : string) : bool :=
  match split_at_pair "{" "{" s with
  | None => false
  | Some (_, after) =>
      match split_at_pair "}" "}" after with
      | None => false
      | Some _ => true
      end
  end.

(* --------------------------------------------------------------------- *)
(** ** The design document ([LandingPageData])                            *)
(* --------------------------------------------------------------------- *)

(** A [Date] object, by its time value. *)
Definition Date : Type := Z.

Inductive ResourceType : Type := video | image.
Inductive BackgroundType : Type := solid | gradient.
Inductive GradientDirection : Type := to_r | to_br | to_b | to_bl.

Module Button.
Record t : Type := mk {
  show : bool;
  text : string;
  url : string;
  color : string
}.

(** The field names [updateButton] accepts, with the type of each. *)
Inductive key : Type := k_show | k_text | k_url | k_color.

Definition value (k : key) : Type :=
  match k with k_show => bool | _ => string end.

Definition get (k : key) : t -> value k :=
  match k with
  | k_show => show | k_text => text | k_url => url | k_color => color
  end.

(** [{ ...b, [field]: v }] *)
Definition set (k : key) : value k -> t -> t :=
  match k with
  | k_show => fun v b => mk v (text b) (url b) (color b)
  | k_text => fun v b => mk (show b) v (url b) (color b)
  | k_url => fun v b => mk (show b) (text b) v (color b)
  | k_color => fun v b => mk (show b) (text b) (url b) v
  end.
End Button.

Module Background.
Record t : Type := mk {
  type : BackgroundType;
  color : string;
  gradientFrom : string;
  gradientTo : string;
  gradientDirection : GradientDirection
}.

(** [keyof LandingPageData["background"]] *)
Inductive key : Type :=
  k_type | k_color | k_gradientFrom | k_gradientTo | k_gradientDirection.

Definition value (k : key) : Type :=
  match k with
  | k_type => BackgroundType
  | k_gradientDirection => GradientDirection
  | _ => string
  end.

Definition get (k : key) : t -> value k :=
  match k with
  | k_type => type
  | k_color => color
  | k_gradientFrom => gradientFrom
  | k_gradientTo => gradientTo
  | k_gradientDirection => gradientDirection
  end.

(** [{ ...bg, [field]: v }] *)
Definition set (k : key) : value k -> t -> t :=
  match k with
  | k_type => fun v b =>
      mk v (color b) (gradientFrom b) (gradientTo b) (gradientDirection b)
  | k_color => fun v b =>
      mk (type b) v (gradientFrom b) (gradientTo b) (gradientDirection b)
  | k_gradientFrom => fun v b =>
      mk (type b) (color b) v (gradientTo b) (gradientDirection b)
  | k_gradientTo => fun v b =>
      mk (type b) (color b) (gradientFrom b) v (gradientDirection b)
  | k_gradientDirection => fun v b =>
      mk (type b) (color b) (gradientFrom b) (gradientTo b) v
  end.
End Background.

Record LandingPageData : Type := mkData {
  logo : string;
  title : string;
  titleColor : string;
  description : string;
  descriptionColor : string;
  showDate : bool;
  selectedDate : option Date;
  dateColor : string;
  resourceType : ResourceType;
  resourceUrl : string;
  button1 : Button.t;
  button2 : Button.t;
  background : Background.t
}.

(** [keyof LandingPageData], with the type of the value under each key. *)
Module Key.
Inductive t : Type :=
  | logo | title | titleColor | description | descriptionColor
  | showDate | selectedDate | dateColor | resourceType | resourceUrl
  | button1 | button2 | background.

Definition value (k : t) : Type :=
  match k with
  | showDate => bool
  | selectedDate => option Date
  | resourceType => ResourceType
  | button1 | button2 => Button.t
  | background => Background.t
  | _ => string
  end.
End Key.

(** [data[field]] *)
Definition get_field (k : Key.t) : LandingPageData -> Key.value k :=
  match k with
  | Key.logo => logo
  | Key.title => title
  | Key.titleColor => titleColor
  | Key.description => description
  | Key.descriptionColor => descriptionColor
  | Key.showDate => showDate
  | Key.selectedDate => selectedDate
  | Key.dateColor => dateColor
  | Key.resourceType => resourceType
  | Key.resourceUrl => resourceUrl
  | Key.button1 => button1
  | Key.button2 => button2
  | Key.background => background
  end.

(** [{ ...data, [field]: value }] *)
Definition set_field (k : Key.t) : Key.value k -> LandingPageData -> LandingPageData :=
  match k with
  | Key.logo => fun v d =>
      mkData v (title d) (titleColor d) (description d) (descriptionColor d)
        (showDate d) (selectedDate d) (dateColor d) (resourceType d)
        (resourceUrl d) (button1 d) (button2 d) (background d)
  | Key.title => fun v d =>
      mkData (logo d) v (titleColor d) (description d) (descriptionColor d)
        (showDate d) (selectedDate d) (dateColor d) (resourceType d)
        (resourceUrl d) (button1 d) (button2 d) (background d)
  | Key.titleColor => fun v d =>
      mkData (logo d) (title d) v (description d) (descriptionColor d)
        (showDate d) (selectedDate d) (dateColor d) (resourceType d)
        (resourceUrl d) (button1 d) (button2 d) (background d)
  | Key.description => fun v d =>
      mkData (logo d) (title d) (titleColor d) v (descriptionColor d)
        (showDate d) (selectedDate d) (dateColor d) (resourceType d)
        (resourceUrl d) (button1 d) (button2 d) (background d)
  | Key.descriptionColor => fun v d =>
      mkData (logo d) (title d) (titleColor d) (description d) v
        (showDate d) (selectedDate d) (dateColor d) (resourceType d)
        (resourceUrl d) (button1 d) (button2 d) (background d)
  | Key.showDate => fun v d =>
      mkData (logo d) (title d) (titleColor d) (description d)
        (descriptionColor d) v (selectedDate d) (dateColor d)
        (resourceType d) (resourceUrl d) (button1 d) (button2 d)
        (background d)
  | Key.selectedDate => fun v d =>
      mkData (logo d) (title d) (titleColor d) (description d)
        (descriptionColor d) (showDate d) v (dateColor d) (resourceType d)
        (resourceUrl d) (button1 d) (button2 d) (background d)
  | Key.dateColor => fun v d =>
      mkData (logo d) (title d) (titleColor d) (description d)
        (descriptionColor d) (showDate d) (selectedDate d) v
        (resourceType d) (resourceUrl d) (button1 d) (button2 d)
        (background d)
  | Key.resourceType => fun v d =>
      mkData (logo d) (title d) (titleColor d) (description d)
        (descriptionColor d) (showDate d) (selectedDate d) (dateColor d) v
        (resourceUrl d) (button1 d) (button2 d) (background d)
  | Key.resourceUrl => fun v d =>
      mkData (logo d) (title d) (titleColor d) (description d)
        (descriptionColor d) (showDate d) (selectedDate d) (dateColor d)
        (resourceType d) v (button1 d) (button2 d) (background d)
  | Key.button1 => fun v d =>
      mkData (logo d) (title d) (titleColor d) (description d)
        (descriptionColor d) (showDate d) (selectedDate d) (dateColor d)
        (resourceType d) (resourceUrl d) v (button2 d) (background d)
  | Key.button2 => fun v d =>
      mkData (logo d) (title d) (titleColor d) (description d)
        (descriptionColor d) (showDate d) (selectedDate d) (dateColor d)
        (resourceType d) (resourceUrl d) (button1 d) v (background d)
  | Key.background => fun v d =>
      mkData (logo d) (title d) (titleColor d) (description d)
        (descriptionColor d) (showDate d) (selectedDate d) (dateColor d)
        (resourceType d) (resourceUrl d) (button1 d) (button2 d) v
  end.

(* --------------------------------------------------------------------- *)
(** ** The partial seed and [mergeInitialData]                            *)
(* --------------------------------------------------------------------- *)

(** [InitialLandingPageData]: every field optional, [None] for a field that
    is left out. *)
Module Initial.
Record button : Type := mkButton {
  text : option string;
  url : option string;
  color : option string
}.

Record t : Type := mk {
  logo : option string;
  title : option string;
  description : option string;
  button1 : option button;
  button2 : option button;
  resourceUrl : option string;
  resourceType : option ResourceType;
  selectedDate : option Date;
  showDate : option bool
}.

(** The seed [{}]. *)
Definition empty : t := mk None None None None None None None None None.
End Initial.

(** [...(x && { key: x })] for an optional string [x]: the key is
    overridden when [x] is truthy, i.e. present and not the empty string;
    spreading [undefined] or [""] adds nothing. *)
Definition spread_string (x : option string) (dflt : string) : string :=
  match x with
  | Some (String c s) => String c s
  | Some EmptyString => dflt
  | None => dflt
  end.

(** [initial.button?.field]: optional chaining through the nested seed. *)
Definition chain {A : Type} (b : option Initial.button)
    (field : Initial.button -> option A) : option A :=
  match b with
  | Some b => field b
  | None => None
  end.

(** [{ ...defaults.button, ...(text && {text}), ...(url && {url}),
       ...(color && {color}) }] *)
Definition mergeButton (dflt : Button.t) (b : option Initial.button) : Button.t :=
  Button.mk (Button.show dflt)
            (spread_string (chain b Initial.text) (Button.text dflt))
            (spread_string (chain b Initial.url) (Button.url dflt))
            (spread_string (chain b Initial.color) (Button.color dflt)).

Definition mergeInitialData (defaults : LandingPageData)
    (initial : option Initial.t) : LandingPageData :=
  match initial with
  | None => defaults
  | Some initial =>
      {| logo := spread_string (Initial.logo initial) (logo defaults);
         title := spread_string (Initial.title initial) (title defaults);
         titleColor := titleColor defaults;
         description :=
           spread_string (Initial.description initial) (description defaults);
         descriptionColor := descriptionColor defaults;
         (* initial.showDate !== undefined *)
         showDate :=
           match Initial.showDate initial with
           | Some b => b
           | None => showDate defaults
           end;
         (* a Date object is always truthy *)
         selectedDate :=
           match Initial.selectedDate initial with
           | Some d => Some d
           | None => selectedDate defaults
           end;
         dateColor := dateColor defaults;
         (* both "video" and "image" are truthy *)
         resourceType :=
           match Initial.resourceType initial with
           | Some r => r
           | None => resourceType defaults
           end;
         resourceUrl :=
           spread_string (Initial.resourceUrl initial) (resourceUrl defaults);
         button1 := mergeButton (button1 defaults) (Initial.button1 initial);
         button2 := mergeButton (button2 defaults) (Initial.button2 initial);
         background := background defaults |}
  end.

(** [defaultData]; [now] is the value of [new Date()] at mount. *)
Definition defaultData (now : Date) : LandingPageData :=
  {| logo := "/placeholder.svg?height=40&width=120&text=Logo";
     title := "Hello {{first-name}}, You've Got a Special Gift!";
     titleColor := "#111827";
     description :=
       "We're excited to share something special with you, {{first-name}}. Your gift is on its way, and we wanted to create this personalized experience just for you.";
     descriptionColor := "#6B7280";
     showDate := true;
     selectedDate := Some now;
     dateColor := "#7C3AED";
     resourceType := image;
     resourceUrl := "/placeholder.svg?height=400&width=600&text=Gift+Preview";
     button1 := Button.mk true "Track My Gift" "#" "#7C3AED";
     button2 := Button.mk true "Learn More" "#" "#6B7280";
     background := Background.mk solid "#FFFFFF" "#7C3AED" "#A855F7" to_br |}.

(* --------------------------------------------------------------------- *)
(** ** Configuration store: the three update handlers                     *)
(* --------------------------------------------------------------------- *)

(** What a handler does, in order: it hands React the next state
    ([setData]) and calls the change sink ([onDataChange]). *)
Inductive Effect : Type :=
  | SetData (newData : LandingPageData)
  | OnDataChange (newData : LandingPageData).

(** The component's props.  The sink is an external function: the model
    keeps whether one was supplied, and the trace keeps what it is called
    with. *)
Record LandingPageDesignerProps : Type := mkProps {
  onDataChange : bool;
  initialData : option Initial.t
}.

(** The document the component mounts with:
    [useState(mergeInitialData(defaultData, initialData))]. *)
Definition initialState (props : LandingPageDesignerProps) (now : Date)
  : LandingPageData :=
  mergeInitialData (defaultData now) (initialData props).

(** [onDataChange?.(newData)] *)
Definition notify (props : LandingPageDesignerProps) (newData : LandingPageData)
  : list Effect :=
  if onDataChange props then [OnDataChange newData] else [].

Inductive ButtonNum : Type := One | Two.

Definition button_key (n : ButtonNum) : Key.t :=
  match n with One => Key.button1 | Two => Key.button2 end.

(** [data[`button${buttonNum}`]] *)
Definition get_button (n : ButtonNum) : LandingPageData -> Button.t :=
  match n with One => button1 | Two => button2 end.

Definition set_button (n : ButtonNum) : Button.t -> LandingPageData -> LandingPageData :=
  match n with One => set_field Key.button1 | Two => set_field Key.button2 end.

Section Store.
Variable props : LandingPageDesignerProps.
(** The state the rendering closure captured. *)
Variable data : LandingPageData.

Definition updateData (field : Key.t) (value : Key.value field) : list Effect :=
  let newData := set_field field value data in
  SetData newData :: notify props newData.

Definition updateButton (buttonNum : ButtonNum) (field : Button.key)
    (value : Button.value field) : list Effect :=
  let newData :=
    set_button buttonNum (Button.set field value (get_button buttonNum data)) data in
  SetData newData :: notify props newData.

Definition updateBackground (field : Background.key)
    (value : Background.value field) : list Effect :=
  let newData :=
    set_field Key.background (Background.set field value (background data)) data in
  SetData newData :: notify props newData.
End Store.

(** The state React commits once a handler has run: the argument of the last
    [setData]; calls of the sink leave it alone. *)
Definition apply_effect (data : LandingPageData) (e : Effect) : LandingPageData :=
  match e with
  | SetData newData => newData
  | OnDataChange _ => data
  end.

Definition commit (data : LandingPageData) (effects : list Effect) : LandingPageData :=
  fold_left apply_effect effects data.

(** What the sink received, in call order. *)
Definition sink_calls (effects : list Effect) : list LandingPageData :=
  flat_map (fun e => match e with OnDataChange d => [d] | SetData _ => [] end)
           effects.

(** One call of a handler, as the UI issues it. *)
Inductive Update : Type :=
  | UpdateData (field : Key.t) (value : Key.value field)
  | UpdateButton (buttonNum : ButtonNum) (field : Button.key)
                 (value : Button.value field)
  | UpdateBackground (field : Background.key) (value : Background.value field).

Definition dispatch (props : LandingPageDesignerProps) (data : LandingPageData)
    (u : Update) : list Effect :=
  match u with
  | UpdateData field value => updateData props data field value
  | UpdateButton n field value => updateButton props data n field value
  | UpdateBackground field value => updateBackground props data field value
  end.

(** A series of edits, one event each: every handler runs in the closure of
    the render that followed the previous commit. *)
Fixpoint session (props : LandingPageDesignerProps) (data : LandingPageData)
    (us : list Update) : list Effect :=
  match us with
  | [] => []
  | u :: us' =>
      let effects := dispatch props data u in
      effects ++ session props (commit data effects) us'
  end.

(** The snapshot an update asks for. *)
Definition snapshot (data : LandingPageData) (u : Update) : LandingPageData :=
  match u with
  | UpdateData field value => set_field field value data
  | UpdateButton n field value =>
      set_button n (Button.set field value (get_button n data)) data
  | UpdateBackground field value =>
      set_field Key.background (Background.set field value (background data)) data
  end.

(** The documents a series of edits goes through. *)
Fixpoint snapshots (data : LandingPageData) (us : list Update)
  : list LandingPageData :=
  match us with
  | [] => []
  | u :: us' => snapshot data u :: snapshots (snapshot data u) us'
  end.

(* --------------------------------------------------------------------- *)
(** ** Feedback state ([showFeedbackModal], [showRating] and the modal's)  *)
(* --------------------------------------------------------------------- *)

Module FeedbackType.
Inductive t : Type := video | text.
End FeedbackType.

Inductive PreviewMode : Type := mobile | desktop.

(** The pieces of React state the feedback interaction lives in: two flags
    of the designer and the three state cells of [FeedbackModal], which
    stays mounted (and keeps its state) while it renders nothing. *)
Record FeedbackState : Type := mkFeedback {
  showFeedbackModal : bool;
  showRating : bool;
  feedbackType : FeedbackType.t;
  isRecording : bool;
  textFeedback : string
}.

(** The [useState] initial values. *)
Definition initialFeedback : FeedbackState :=
  mkFeedback false false FeedbackType.video false "".

(** White space as [String.prototype.trim] sees it, among the code units
    below 256: TAB, LF, VT, FF, CR, space and the no-break space. *)
Definition is_white_space (c : ascii) : bool :=
  let n := nat_of_ascii c in
  ((9 <=? n)%nat && (n <=? 13)%nat) || (n =? 32)%nat || (n =? 160)%nat.

Fixpoint trimStart (s : string) : string :=
  match s with
  | EmptyString => EmptyString
  | String c s' => if is_white_space c then trimStart s' else s
  end.

Fixpoint trimEnd (s : string) : string :=
  match s with
  | EmptyString => EmptyString
  | String c s' =>
      match trimEnd s' with
      | EmptyString => if is_white_space c then EmptyString else String c EmptyString
      | t => String c t
      end
  end.

Definition trim (s : string) : string := trimEnd (trimStart s).

(** The event handlers the preview attaches to its controls. *)
Inductive Handler : Type :=
  | WindowOpen (url target : string)
  | SetShowFeedbackModal (b : bool)
  | OnClose                       (* the modal's prop: handleFeedbackModalClose *)
  | HandleSubmit
  | SetFeedbackType (t : FeedbackType.t)
  | ToggleRecording               (* setIsRecording(!isRecording) *)
  | SetTextFeedback (value : string).

(** [handleFeedbackModalClose] *)
Definition handleFeedbackModalClose (s : FeedbackState) : FeedbackState :=
  mkFeedback false true (feedbackType s) (isRecording s) (textFeedback s).

(** The state each handler leaves behind. *)
Definition handle (h : Handler) (s : FeedbackState) : FeedbackState :=
  match h with
  | WindowOpen _ _ => s
  | SetShowFeedbackModal b =>
      mkFeedback b (showRating s) (feedbackType s) (isRecording s) (textFeedback s)
  | OnClose => handleFeedbackModalClose s
  | HandleSubmit => handleFeedbackModalClose s     (* handleSubmit calls onClose() *)
  | SetFeedbackType t =>
      mkFeedback (showFeedbackModal s) (showRating s) t (isRecording s) (textFeedback s)
  | ToggleRecording =>
      mkFeedback (showFeedbackModal s) (showRating s) (feedbackType s)
                 (negb (isRecording s)) (textFeedback s)
  | SetTextFeedback value =>
      mkFeedback (showFeedbackModal s) (showRating s) (feedbackType s)
                 (isRecording s) value
  end.

(* --------------------------------------------------------------------- *)
(** ** The render description                                             *)
(* --------------------------------------------------------------------- *)

Inductive Attr : Type :=
  | Style (property value : string)
  | Src (s : string)
  | Alt (s : string)
  | DangerouslySetInnerHTML (html : string)
  | OnClick (h : Handler)
  | OnChange                       (* (e) => setTextFeedback(e.target.value) *)
  | Value (s : string)
  | Disabled (b : bool)
  | Other (name value : string).  (* variant, size, placeholder ... *)

#[local] Set Warnings "-register-all".

(** An element carries its tag (or component name), its [className] (empty
    when the source gives none), its other attributes and its children. *)
Inductive Node : Type :=
  | Elem (tag : string) (className : string) (attrs : list Attr)
         (children : list Node)
  | Text (s : string).

(** [{cond && node}] *)
Definition when (cond : bool) (n : Node) : list Node :=
  if cond then [n] else [].

(** [previewMode === "mobile" ? a : b] *)
Definition ifMobile (mode : PreviewMode) (a b : string) : string :=
  match mode with mobile => a | desktop => b end.

(** [previewMode === "desktop" ? a : b] *)
Definition ifDesktop (mode : PreviewMode) (a b : string) : string :=
  match mode with desktop => a | mobile => b end.

(** [s || dflt] on strings *)
Definition or_string (s dflt : string) : string :=
  match s with EmptyString => dflt | _ => s end.

Definition direction_css (direction : GradientDirection) : string :=
  match direction with
  | to_r => "to right"
  | to_br => "to bottom right"
  | to_b => "to bottom"
  | to_bl => "to bottom left"
  end.

Definition getBackgroundStyle (data : LandingPageData) : Attr :=
  let bg := background data in
  match Background.type bg with
  | gradient =>
      Style "background"
            ("linear-gradient(" +:+ direction_css (Background.gradientDirection bg)
             +:+ ", " +:+ Background.gradientFrom bg
             +:+ ", " +:+ Background.gradientTo bg +:+ ")")
  | solid => Style "backgroundColor" (Background.color bg)
  end.

(** The envelope emoji of the feedback button, U+1F48C in UTF-8. *)
Definition love_letter : string :=
  String (ascii_of_nat 240) (String (ascii_of_nat 159)
    (String (ascii_of_nat 146) (String (ascii_of_nat 140) EmptyString))).

Section Preview.
(** [format] of date-fns, an external collaborator. *)
Variable format : Date -> string -> string.

Variable previewMode : PreviewMode.
Variable shouldPulse : bool.
Variable fb : FeedbackState.
Variable data : LandingPageData.

(** The rating section shown once the modal has closed. *)
Definition ratingSection : Node :=
  Elem "div" "text-center space-y-3" []
    [ Elem "p" ("text-gray-700 " +:+ ifMobile previewMode "text-sm" "text-base") []
        [Text "Was this experience delightful?"];
      Elem "div" "flex justify-center gap-6" []
        [ Elem "button"
            "group flex flex-col items-center gap-1 p-2 rounded-lg hover:bg-green-50 transition-colors" []
            [ Elem "div"
                "w-10 h-10 bg-green-100 rounded-full flex items-center justify-center group-hover:bg-green-200 transition-colors" []
                [Elem "ThumbsUp" "w-5 h-5 text-green-600" [] []];
              Elem "span"
                ("text-green-600 font-medium " +:+ ifMobile previewMode "text-xs" "text-sm") []
                [Text "Yes"] ];
          Elem "button"
            "group flex flex-col items-center gap-1 p-2 rounded-lg hover:bg-red-50 transition-colors" []
            [ Elem "div"
                "w-10 h-10 bg-red-100 rounded-full flex items-center justify-center group-hover:bg-red-200 transition-colors" []
                [Elem "ThumbsDown" "w-5 h-5 text-red-600" [] []];
              Elem "span"
                ("text-red-600 font-medium " +:+ ifMobile previewMode "text-xs" "text-sm") []
                [Text "No"] ] ];
      Elem "p" ("text-gray-500 " +:+ ifMobile previewMode "text-xs" "text-sm") []
        [Text "Thank you for your feedback!"] ].

(** [!showRating ? <feedback button> : <rating section>] *)
Definition feedbackAffordance : Node :=
  if negb (showRating fb) then
    Elem "div" "flex justify-center" []
      [ Elem "Button"
          (ifMobile previewMode "text-sm px-4 py-2" "px-6 py-3"
           +:+ " border-purple-200 text-purple-700 hover:bg-purple-50 hover:border-purple-300 transition-colors "
           +:+ (if shouldPulse then "animate-pulse" else ""))
          [Other "variant" "outline"; OnClick (SetShowFeedbackModal true)]
          [ Elem "span" "mr-2" [] [Text love_letter];
            Text "Leave a message for host" ] ]
  else ratingSection.

(** One call-to-action button. *)
Definition actionButton (b : Button.t) : Node :=
  Elem "Button"
    (ifDesktop previewMode "flex-1" "w-full text-sm" +:+ " text-white hover:opacity-90")
    [ Style "backgroundColor" (Button.color b);
      OnClick (WindowOpen (Button.url b) "_blank") ]
    [Text (Button.text b)].

(** [FeedbackModal]: nothing when closed. *)
Definition FeedbackModal : list Node :=
  if negb (showFeedbackModal fb) then [] else
  [ Elem "div" "fixed inset-0 bg-black bg-opacity-50 flex items-center justify-center z-50 p-4" []
    [ Elem "div"
        ("bg-white rounded-lg " +:+ ifMobile previewMode "w-full max-w-sm" "w-full max-w-md"
         +:+ " max-h-[90vh] overflow-y-auto") []
        [ Elem "div" "flex items-center justify-between p-4 border-b" []
            [ Elem "h3"
                ("font-semibold text-gray-900 " +:+ ifMobile previewMode "text-lg" "text-xl") []
                [Text "Leave a Message"];
              Elem "Button" "h-8 w-8 p-0"
                [Other "variant" "ghost"; Other "size" "sm"; OnClick OnClose]
                [Elem "X" "w-4 h-4" [] []] ];
          Elem "div" "p-4 space-y-4" []
            [ match feedbackType fb with
              | FeedbackType.video =>
                  Elem "div" "space-y-4" []
                    ([ Elem "div" "text-center" []
                         [ Elem "h4"
                             ("font-medium text-gray-900 mb-2 "
                              +:+ ifMobile previewMode "text-base" "text-lg") []
                             [Text "Record Your Message"];
                           Elem "p"
                             ("text-gray-600 " +:+ ifMobile previewMode "text-sm" "text-base") []
                             [Text (if isRecording fb then "Recording... Tap to stop"
                                    else "Share a personal video message")] ];
                       Elem "div"
                         ("bg-gray-900 rounded-lg " +:+ ifMobile previewMode "h-40" "h-48"
                          +:+ " flex items-center justify-center relative overflow-hidden") []
                         [ Elem "div" "text-center text-white" []
                             [ if isRecording fb then
                                 Elem "div" "space-y-2" []
                                   [ Elem "div" "w-4 h-4 bg-red-500 rounded-full mx-auto animate-pulse" [] [];
                                     Elem "p" "text-sm" [] [Text "Recording..."];
                                     Elem "p" "text-xs text-gray-300" [] [Text "00:15"] ]
                               else
                                 Elem "div" "space-y-2" []
                                   [ Elem "div"
                                       "w-16 h-16 bg-gray-700 rounded-full flex items-center justify-center mx-auto" []
                                       [Elem "Video" "w-8 h-8" [] []];
                                     Elem "p" "text-sm" [] [Text "Camera Preview"];
                                     Elem "p" "text-xs text-gray-300" [] [Text "Max 2 minutes"] ] ] ];
                       Elem "div" "flex justify-center gap-4" []
                         [ Elem "Button"
                             (ifMobile previewMode "text-sm" ""
                              +:+ " border-blue-200 text-blue-700 hover:bg-blue-50")
                             [Other "variant" "outline"; OnClick (SetFeedbackType FeedbackType.text)]
                             [Elem "MessageSquare" "w-4 h-4 mr-2" [] []; Text "Write instead"];
                           Elem "Button"
                             ((if isRecording fb then "bg-red-600 hover:bg-red-700"
                               else "bg-purple-600 hover:bg-purple-700")
                              +:+ " text-white " +:+ ifMobile previewMode "text-sm" "")
                             [OnClick ToggleRecording]
                             [ Elem "Video" "w-4 h-4 mr-2" [] [];
                               Text (if isRecording fb then "Stop Recording" else "Start Recording") ] ] ]
                     ++ when (isRecording fb)
                          (Elem "div" "text-center" []
                             [ Elem "Button"
                                 ("bg-green-600 hover:bg-green-700 text-white "
                                  +:+ ifMobile previewMode "text-sm" "")
                                 [OnClick HandleSubmit]
                                 [Text "Send Video Message"] ]))
              | FeedbackType.text =>
                  Elem "div" "space-y-4" []
                    [ Elem "div" "text-center" []
                        [ Elem "h4"
                            ("font-medium text-gray-900 mb-2 "
                             +:+ ifMobile previewMode "text-base" "text-lg") []
                            [Text "Write Your Message"];
                          Elem "p"
                            ("text-gray-600 " +:+ ifMobile previewMode "text-sm" "text-base") []
                            [Text "Share your thoughts, feedback, or just say hello!"] ];
                      Elem "textarea"
                        ("w-full border border-gray-300 rounded-lg p-3 "
                         +:+ ifMobile previewMode "h-32 text-sm" "h-40"
                         +:+ " resize-none focus:outline-none focus:ring-2 focus:ring-blue-500 focus:border-blue-500")
                        [ Value (textFeedback fb); OnChange;
                          Other "placeholder" "Type your message here...";
                          Other "autoFocus" "true" ]
                        [];
                      Elem "div" "flex justify-center gap-4" []
                        [ Elem "Button"
                            (ifMobile previewMode "text-sm" ""
                             +:+ " border-purple-200 text-purple-700 hover:bg-purple-50")
                            [Other "variant" "outline"; OnClick (SetFeedbackType FeedbackType.video)]
                            [Elem "Video" "w-4 h-4 mr-2" [] []; Text "Record instead"];
                          Elem "Button"
                            ("bg-blue-600 hover:bg-blue-700 text-white "
                             +:+ ifMobile previewMode "text-sm" "")
                            [ OnClick HandleSubmit;
                              (* disabled={!textFeedback.trim()} *)
                              Disabled (negb (ToBoolean (JsString (trim (textFeedback fb))))) ]
                            [Elem "MessageSquare" "w-4 h-4 mr-2" [] []; Text "Send Message"] ] ]
              end ] ] ] ].

(** [renderLandingPageContent] *)
Definition renderLandingPageContent : Node :=
  Elem "div" (ifMobile previewMode "p-6" "p-8" +:+ " space-y-6 min-h-full")
    [getBackgroundStyle data]
    ([ (* header with logo *)
       Elem "div" "flex justify-end" []
         [ Elem "img" (ifMobile previewMode "h-8" "h-10")
             [Src (or_string (logo data) "/placeholder.svg"); Alt "Logo"] [] ];
       Elem "div"
         (ifDesktop previewMode "grid lg:grid-cols-2 gap-12 items-start" "space-y-6") []
         [ (* left side: text content *)
           Elem "div" "space-y-6" []
             ([ Elem "div" "space-y-3" []
                  [ Elem "h1"
                      ("font-bold leading-tight " +:+ ifMobile previewMode "text-xl" "text-4xl")
                      [Style "color" (titleColor data)]
                      [Text (renderDynamicText (title data))];
                    Elem "p"
                      ("leading-relaxed " +:+ ifMobile previewMode "text-sm" "text-lg")
                      [ Style "color" (descriptionColor data);
                        DangerouslySetInnerHTML
                          (renderRichTextWithDynamicFields (description data)) ]
                      [] ] ]
              ++ (* data.showDate && data.selectedDate && ... *)
                 match showDate data, selectedDate data with
                 | true, Some date =>
                     [ Elem "div"
                         ("flex items-center gap-2 font-medium "
                          +:+ ifMobile previewMode "text-sm" "text-base")
                         [Style "color" (dateColor data)]
                         [ Elem "CalendarIcon" (ifMobile previewMode "w-4 h-4" "w-5 h-5") [] [];
                           Text (format date "MMMM d, yyyy") ] ]
                 | _, _ => []
                 end);
           (* right side: resource and actions *)
           Elem "div" "space-y-6" []
             ([ Elem "div" "rounded-lg overflow-hidden bg-gray-100" []
                  [ match resourceType data with
                    | image =>
                        Elem "img"
                          ("w-full object-cover " +:+ ifMobile previewMode "h-32" "h-64")
                          [Src (or_string (resourceUrl data) "/placeholder.svg"); Alt "Resource"]
                          []
                    | video =>
                        Elem "div"
                          ("w-full bg-gray-900 flex items-center justify-center "
                           +:+ ifMobile previewMode "h-32" "h-64") []
                          [ Elem "div" "text-center text-white" []
                              [ Elem "Play"
                                  ("mx-auto mb-2 " +:+ ifMobile previewMode "w-8 h-8" "w-12 h-12")
                                  [] [];
                                Elem "p" (ifMobile previewMode "text-xs" "text-sm") []
                                  [Text "Video Player"] ] ]
                    end ] ]
              ++ when (Button.show (button1 data) || Button.show (button2 data))
                   (Elem "div" ("space-y-3 " +:+ ifDesktop previewMode "" "") []
                      [ Elem "div"
                          (ifDesktop previewMode "flex flex-col sm:flex-row gap-3" "space-y-2") []
                          (when (Button.show (button1 data)) (actionButton (button1 data))
                           ++ when (Button.show (button2 data)) (actionButton (button2 data)));
                        feedbackAffordance ])
              ++ (* the feedback button shows even when both buttons are hidden *)
                 when (negb (Button.show (button1 data)) && negb (Button.show (button2 data)))
                   (Elem "div" "space-y-3" [] [feedbackAffordance])) ] ]
     ++ FeedbackModal).
End Preview.

(** *** Reading a render description *)

(** The tree with every [className] blanked: what is left is everything a
    render says apart from layout and type scale. *)
Fixpoint erase_classes (n : Node) : Node :=
  match n with
  | Elem tag _ attrs children => Elem tag "" attrs (map erase_classes children)
  | Text s => Text s
  end.

(** The text directly inside a node. *)
Fixpoint own_text (children : list Node) : string :=
  match children with
  | [] => ""
  | Text s :: rest => s +:+ own_text rest
  | Elem _ _ _ _ :: rest => own_text rest
  end.

(** All elements of a tree, parents before children, left to right. *)
Fixpoint elements (n : Node) : list (string * list Attr * list Node) :=
  match n with
  | Elem tag _ attrs children => (tag, attrs, children) :: flat_map elements children
  | Text _ => []
  end.

(** The texts of the elements with a given tag. *)
Definition texts_of (tag : string) (n : Node) : list string :=
  flat_map (fun '(t, _, children) =>
              if String.eqb t tag then [own_text children] else [])
           (elements n).

(** Every markup string injected through [dangerouslySetInnerHTML]. *)
Definition inner_html (n : Node) : list string :=
  flat_map (fun '(_, attrs, _) =>
              flat_map (fun a => match a with
                                 | DangerouslySetInnerHTML h => [h]
                                 | _ => []
                                 end) attrs)
           (elements n).

(** The link buttons: label and target of every element whose click opens a
    window. *)
Definition link_buttons (n : Node) : list (string * string) :=
  flat_map (fun '(_, attrs, children) =>
              flat_map (fun a => match a with
                                 | OnClick (WindowOpen url _) => [(own_text children, url)]
                                 | _ => []
                                 end) attrs)
           (elements n).

(** The date line: the text beside the calendar icon. *)
Definition date_line (n : Node) : list string :=
  flat_map (fun '(_, _, children) =>
              match children with
              | Elem tag _ _ _ :: rest =>
                  if String.eqb tag "CalendarIcon" then [own_text rest] else []
              | _ => []
              end)
           (elements n).

(** What a render says: the headline, the description markup, the link
    buttons (label and target) and the date line. *)
Record Content : Type := mkContent {
  content_title : list string;
  content_description : list string;
  content_buttons : list (string * string);
  content_date : list string
}.

Definition semantic_content (n : Node) : Content :=
  mkContent (texts_of "h1" n) (inner_html n) (link_buttons n) (date_line n).

(** The click handlers a render attaches, and whether a text input is
    shown; a disabled control attaches nothing. *)
Definition is_disabled (attrs : list Attr) : bool :=
  existsb (fun a => match a with Disabled true => true | _ => false end) attrs.

Definition click_handlers (n : Node) : list Handler :=
  flat_map (fun '(_, attrs, _) =>
              if is_disabled attrs then []
              else flat_map (fun a => match a with OnClick h => [h] | _ => [] end) attrs)
           (elements n).

Definition has_text_input (n : Node) : bool :=
  existsb (fun '(_, attrs, _) =>
             existsb (fun a => match a with OnChange => true | _ => false end) attrs)
          (elements n).

(** What the link buttons and the date line of a document are. *)
Definition shown_buttons (data : LandingPageData) : list (string * string) :=
  (if Button.show (button1 data)
   then [(Button.text (button1 data), Button.url (button1 data))] else [])
  ++ (if Button.show (button2 data)
      then [(Button.text (button2 data), Button.url (button2 data))] else []).

Definition shown_date (format : Date -> string -> string)
    (data : LandingPageData) : list string :=
  match showDate data, selectedDate data with
  | true, Some date => [format date "MMMM d, yyyy"]
  | _, _ => []
  end.

(** The handlers a view attaches, in document order: the link buttons, the
    feedback button until the rating shows, and the controls of the open
    modal. *)
Definition attached (data : LandingPageData) (s : FeedbackState) : list Handler :=
  (if Button.show (button1 data)
   then [WindowOpen (Button.url (button1 data)) "_blank"] else [])
  ++ (if Button.show (button2 data)
      then [WindowOpen (Button.url (button2 data)) "_blank"] else [])
  ++ (if showRating s then [] else [SetShowFeedbackModal true])
  ++ (if showFeedbackModal s then
        OnClose ::
        match feedbackType s with
        | FeedbackType.video =>
            SetFeedbackType FeedbackType.text :: ToggleRecording ::
            (if isRecording s then [HandleSubmit] else [])
        | FeedbackType.text =>
            SetFeedbackType FeedbackType.video ::
            (if ToBoolean (JsString (trim (textFeedback s)))
             then [HandleSubmit] else [])
        end
      else []).

(* --------------------------------------------------------------------- *)
(** ** The feedback interaction as a transition system                    *)
(* --------------------------------------------------------------------- *)

(** What a render depends on besides the feedback state.  It may change
    between two events: the author edits the document or switches the
    preview mode (the model lets it change freely, with or without the
    modal being mounted anew). *)
Record Env : Type := mkEnv {
  env_mode : PreviewMode;
  env_pulse : bool;
  env_data : LandingPageData
}.

Section Transitions.
Variable format : Date -> string -> string.

Definition view (e : Env) (s : FeedbackState) : Node :=
  renderLandingPageContent format (env_mode e) (env_pulse e) s (env_data e).

(** An event can occur when the current view attaches its handler to an
    enabled control: a click, or typing into the text area. *)
Inductive fires (tree : Node) : Handler -> Prop :=
  | fires_click h : In h (click_handlers tree) -> fires tree h
  | fires_input value :
      has_text_input tree = true -> fires tree (SetTextFeedback value).

(** What happens to the interaction: a handler fires, or React mounts the
    modal anew.  [FeedbackModal] keeps its three state cells while it stays
    at its place in the tree, also while it renders nothing; it is mounted
    anew, with the initial values, when the preview frame around it changes
    shape (the mobile and the desktop frame differ) and whenever the
    designer re-renders under the fullscreen view, whose component is
    recreated on every render. *)
Inductive Event : Type :=
| Fire (h : Handler)
| Remount.

Definition remount (s : FeedbackState) : FeedbackState :=
mkFeedback (showFeedbackModal s) (showRating s) FeedbackType.video false "".

Inductive step (s : FeedbackState) : Event -> FeedbackState -> Prop :=
| step_fire e h : fires (view e s) h -> step s (Fire h) (handle h s)
| step_remount : step s Remount (remount s).

Inductive run (s : FeedbackState) : list Event -> FeedbackState -> Prop :=
| run_nil : run s [] s
| run_cons ev evs s' s'' : step s ev s' -> run s' evs s'' -> run s (ev :: evs) s''.

Definition reachable (s : FeedbackState) : Prop :=
  exists hs, run initialFeedback hs s.
End Transitions.

(** The states of the spec's machine, read off the React state. *)
Inductive Phase : Type :=
  | Idle
  | ModalOpen (subMode : FeedbackType.t)
  | RatingShown.

Definition phase (s : FeedbackState) : Phase :=
  if showFeedbackModal s then ModalOpen (feedbackType s)
  else if showRating s then RatingShown
  else Idle.

(* --------------------------------------------------------------------- *)
(** ** Contact-card export ([handleSaveVCard] of the card page)           *)
(* --------------------------------------------------------------------- *)

(** The template literal, line feeds included. *)
Definition vCardData : string :=
"BEGIN:VCARD
VERSION:3.0
FN:Alex Johnson
ORG:Delightloop
TITLE:Senior Product Designer
TEL:+1-555-0123
EMAIL:alex@delightloop.com
URL:https://linkedin.com/in/alexjohnson
ADR:;;123 Innovation Drive;San Francisco;CA;94105;USA
END:VCARD".






(* --------------------------------------------------------------------- *)
(** ** Substitution: joining texts, quick-add buttons, markup characters  *)
(* --------------------------------------------------------------------- *)

(** Every opening brace of [s] has a closing brace somewhere behind it: no
    token is left unfinished at the end of [s]. *)
Fixpoint tail_safe (s : string) : bool :=
  match s with
  | EmptyString => true
  | String c s' =>
      (if Ascii.eqb c "{" then negb (close_free s') else true) && tail_safe s'
  end.

Definition starts_with_close (s : string) : bool :=
  match s with
  | String c _ => Ascii.eqb c "}"
  | EmptyString => false
  end.

(** The three quick-add buttons under the headline input, each with the
    token it appends. *)
Inductive QuickField : Type := first_name | last_name | company.

Definition quick_token (q : QuickField) : string :=
  match q with
  | first_name => "{{first-name}}"
  | last_name => "{{last-name}}"
  | company => "{{company}}"
  end.

(** The sample value the preview shows for each of them. *)
Definition quick_value (q : QuickField) : string :=
  match q with
  | first_name => "Sarah"
  | last_name => "Johnson"
  | company => "Acme Corp"
  end.

(** [onClick={() => updateData("title", data.title + "{{...}}")}] *)
Definition addTitleField (props : LandingPageDesignerProps)
    (data : LandingPageData) (q : QuickField) : list Effect :=
  updateData props data Key.title (title data +:+ quick_token q).

(** How often the character [c] occurs in [s]. *)
Fixpoint count_char (c : ascii) (s : string) : nat :=
  match s with
  | EmptyString => 0
  | String x s' => (if Ascii.eqb x c then 1 else 0) + count_char c s'
  end.

(* --------------------------------------------------------------------- *)
(** ** Section visibility ([openSections], [toggleSection])               *)
(* --------------------------------------------------------------------- *)

Module OpenSections.
Record t : Type := mk {
  logo : bool;
  background : bool;
  content : bool;
  media : bool;
  buttons : bool
}.

(** [keyof typeof openSections] *)
Inductive key : Type := k_logo | k_background | k_content | k_media | k_buttons.

Definition get (k : key) : t -> bool :=
  match k with
  | k_logo => logo
  | k_background => background
  | k_content => content
  | k_media => media
  | k_buttons => buttons
  end.

(** [{ ...prev, [section]: v }] *)
Definition set (k : key) (v : bool) (s : t) : t :=
  match k with
  | k_logo => mk v (background s) (content s) (media s) (buttons s)
  | k_background => mk (logo s) v (content s) (media s) (buttons s)
  | k_content => mk (logo s) (background s) v (media s) (buttons s)
  | k_media => mk (logo s) (background s) (content s) v (buttons s)
  | k_buttons => mk (logo s) (background s) (content s) (media s) v
  end.

(** The [useState] initial value: every group expanded. *)
Definition initial : t := mk true true true true true.
End OpenSections.

(** The updater [toggleSection] hands to [setOpenSections]:
    [(prev) => ({ ...prev, [section]: !prev[section] })]. *)
Definition toggleSection (section : OpenSections.key) (prev : OpenSections.t)
  : OpenSections.t :=
  OpenSections.set section (negb (OpenSections.get section prev)) prev.

(* --------------------------------------------------------------------- *)
(** ** Edits the preview cannot show                                      *)
(* --------------------------------------------------------------------- *)

(** The rendering path a background field belongs to; [type] selects the
    path and belongs to neither. *)
Definition background_path (f : Background.key) : option BackgroundType :=
  match f with
  | Background.k_type => None
  | Background.k_color => Some solid
  | Background.k_gradientFrom | Background.k_gradientTo
  | Background.k_gradientDirection => Some gradient
  end.



(** Every [src] a render gives an image. *)
Definition image_sources (n : Node) : list string :=
  flat_map (fun '(_, attrs, _) =>
              flat_map (fun a => match a with Src s => [s] | _ => [] end) attrs)
           (elements n).

(** The handler of the "Leave a message for host" button. *)
Definition is_feedback_button (h : Handler) : bool :=
  match h with
  | SetShowFeedbackModal true => true
  | _ => false
  end.

(* --------------------------------------------------------------------- *)
(** ** Edits that do not interfere                                        *)
(* --------------------------------------------------------------------- *)

#[global] Instance Key_eq_dec : EqDecision Key.t.
Proof. solve_decision. Defined.

#[global] Instance Button_key_eq_dec : EqDecision Button.key.
Proof. solve_decision. Defined.

#[global] Instance Background_key_eq_dec : EqDecision Background.key.
Proof. solve_decision. Defined.

#[global] Instance ButtonNum_eq_dec : EqDecision ButtonNum.
Proof. solve_decision. Defined.

(** Two updates are independent when they name different field paths,
    neither path lying inside the other. *)
Definition independent (u1 u2 : Update) : bool :=
  match u1, u2 with
  | UpdateData k1 _, UpdateData k2 _ => bool_decide (k1 <> k2)
  | UpdateData k _, UpdateButton n _ _
  | UpdateButton n _ _, UpdateData k _ => bool_decide (k <> button_key n)
  | UpdateData k _, UpdateBackground _ _
  | UpdateBackground _ _, UpdateData k _ => bool_decide (k <> Key.background)
  | UpdateButton n1 f1 _, UpdateButton n2 f2 _ =>
      bool_decide (n1 <> n2) || bool_decide (f1 <> f2)
  | UpdateButton _ _ _, UpdateBackground _ _
  | UpdateBackground _ _, UpdateButton _ _ _ => true
  | UpdateBackground f1 _, UpdateBackground f2 _ => bool_decide (f1 <> f2)
  end.

(* --------------------------------------------------------------------- *)
(** ** Feedback: what the reachable states share                          *)
(* --------------------------------------------------------------------- *)

(** The modal and the rating are not up together. *)
Definition exclusive (s : FeedbackState) : Prop :=
  showFeedbackModal s && showRating s = false.


(* --------------------------------------------------------------------- *)
(** ** The browser side of [handleSaveVCard]                              *)
(* --------------------------------------------------------------------- *)

(** What the handler touches of the browser: the children of
    [document.body] (elements by identity), the registry of live object
    URLs with the blob behind each, and the files handed to the user.
    [fresh] numbers the next element or URL created; nothing in use carries
    a number from [fresh] on. *)
Module Browser.
Record blob : Type := mkBlob { parts : string; type : string }.

Record download : Type := mkDownload {
  filename : string;
  mime : string;
  content : string
}.

Record t : Type := mk {
  body : list nat;
  object_urls : list (nat * blob);
  fresh : nat;
  downloads : list download
}.

(** An anchor element with the two attributes the handler sets. *)
Record anchor : Type := mkAnchor { id : nat; href : nat; download_name : string }.

(** [window.URL.createObjectURL(blob)] *)
Definition createObjectURL (b : blob) (w : t) : nat * t :=
  (fresh w, mk (body w) ((fresh w, b) :: object_urls w) (S (fresh w)) (downloads w)).

(** [document.createElement("a")]: a new element, not in the document. *)
Definition createElement (w : t) : nat * t :=
  (fresh w, mk (body w) (object_urls w) (S (fresh w)) (downloads w)).

Definition without (n : nat) (l : list nat) : list nat :=
  List.filter (fun m => negb (Nat.eqb m n)) l.

(** [document.body.appendChild(node)]: the node becomes the last child (it
    is moved if it was a child already). *)
Definition appendChild (n : nat) (w : t) : t :=
  mk (without n (body w) ++ [n]) (object_urls w) (fresh w) (downloads w).

(** [document.body.removeChild(node)] throws unless the node is a child. *)
Definition removeChild (n : nat) (w : t) : option t :=
  if existsb (Nat.eqb n) (body w)
  then Some (mk (without n (body w)) (object_urls w) (fresh w) (downloads w))
  else None.

Definition lookup_url (u : nat) (w : t) : option blob :=
  match List.filter (fun '(v, _) => Nat.eqb v u) (object_urls w) with
  | (_, b) :: _ => Some b
  | [] => None
  end.

(** [link.click()] on an anchor with a [download] attribute: the blob its
    [href] stands for is saved under that name, if the URL is still live. *)
Definition click (a : anchor) (w : t) : t :=
  match lookup_url (href a) w with
  | Some b =>
      mk (body w) (object_urls w) (fresh w)
         (downloads w ++ [mkDownload (download_name a) (type b) (parts b)])
  | None => w
  end.

(** [window.URL.revokeObjectURL(url)] *)
Definition revokeObjectURL (u : nat) (w : t) : t :=
  mk (body w)
     (List.filter (fun '(v, _) => negb (Nat.eqb v u)) (object_urls w))
     (fresh w) (downloads w).

(** Nothing in use is numbered [fresh] or above. *)
Definition well_formed (w : t) : bool :=
  forallb (fun n => Nat.ltb n (fresh w)) (body w)
  && forallb (fun '(u, _) => Nat.ltb u (fresh w)) (object_urls w).
End Browser.

(** [handleSaveVCard]: blob, object URL, anchor, append, click, remove,
    revoke; [None] stands for the exception [removeChild] can throw. *)
Definition handleSaveVCard (w : Browser.t) : option Browser.t :=
  let blob := Browser.mkBlob vCardData "text/vcard" in
  let '(url, w) := Browser.createObjectURL blob w in
  let '(link, w) := Browser.createElement w in
  let a := Browser.mkAnchor link url "alex-johnson.vcf" in
  let w := Browser.appendChild link w in
  let w := Browser.click a w in
  match Browser.removeChild link w with
  | None => None
  | Some w => Some (Browser.revokeObjectURL url w)
  end.

(* --------------------------------------------------------------------- *)
(** ** Keyboard shortcuts of the description editor                       *)
(* --------------------------------------------------------------------- *)

Record KeyboardEvent : Type := mkKey {
  ctrlKey : bool;
  metaKey : bool;
  key : string
}.

(** [String.prototype.toLowerCase] on the code units the shortcuts can
    tell apart: the letters A to Z go to a to z, all else stays. *)
Definition lower_ascii (c : ascii) : ascii :=
  let n := nat_of_ascii c in
  if (65 <=? n)%nat && (n <=? 90)%nat then ascii_of_nat (n + 32) else c.

Fixpoint toLowerCase (s : string) : string :=
  match s with
  | EmptyString => EmptyString
  | String c s' => String (lower_ascii c) (toLowerCase s')
  end.

(** The [onKeyDown] handler of the editor: the command it passes to
    [document.execCommand], after [preventDefault]; [None] when it lets the
    key through. *)
Definition onKeyDown (e : KeyboardEvent) : option string :=
  if ctrlKey e || metaKey e then
    let k := toLowerCase (key e) in
    if String.eqb k "b" then Some "bold"
    else if String.eqb k "i" then Some "italic"
    else if String.eqb k "u" then Some "underline"
    else None
  else None.

(* --------------------------------------------------------------------- *)
(** ** The controls of the editing panel                                  *)
(* --------------------------------------------------------------------- *)





(* ===================================================================== *)
(** * Part II: properties                                                 *)
(* ===================================================================== *)

(* --------------------------------------------------------------------- *)
(** ** Strings                                                            *)
(* --------------------------------------------------------------------- *)

Lemma app_String (c : ascii) (s t : string) :
  String c s +:+ t = String c (s +:+ t).
Proof. reflexivity. Qed.

Lemma app_empty_l (s : string) : "" +:+ s = s.
Proof. reflexivity. Qed.

Lemma app_empty_r (s : string) : s +:+ "" = s.
Proof. induction s as [|c s IH]; [reflexivity|]. now rewrite app_String, IH. Qed.

Lemma app_assoc_string (s t u : string) : (s +:+ t) +:+ u = s +:+ (t +:+ u).
Proof.
  induction s as [|c s IH]; [reflexivity|].
  now rewrite !app_String, IH.
Qed.

Lemma length_app_string (s t : string) :
  String.length (s +:+ t) = String.length s + String.length t.
Proof.
  induction s as [|c s IH]; [reflexivity|].
  rewrite app_String. simpl. now rewrite IH.
Qed.

(* --------------------------------------------------------------------- *)
(** ** The pattern                                                        *)
(* --------------------------------------------------------------------- *)

(** [span_name] cuts [s] in two, the first part free of closing braces and
    the second empty or opening with one. *)
Lemma span_name_split (s name rest : string) :
  span_name s = (name, rest) ->
  s = name +:+ rest /\ close_free name = true
  /\ (rest = "" \/ exists rest', rest = String "}" rest').
Proof.
  revert name rest. induction s as [|c s IH]; intros name rest; simpl.
  - intros [= <- <-]. repeat split. now left.
  - destruct (Ascii.eqb_spec c "}") as [->|Hc].
    + intros [= <- <-]. repeat split. right. now exists s.
    + destruct (span_name s) as [n r] eqn:E. intros [= <- <-].
      destruct (IH n r eq_refl) as (-> & Hn & Hr).
      repeat split; [|exact Hr].
      simpl. rewrite Hn. now destruct (Ascii.eqb_spec c "}").
Qed.

Lemma span_name_app (name rest : string) :
  close_free name = true ->
  (rest = "" \/ exists rest', rest = String "}" rest') ->
  span_name (name +:+ rest) = (name, rest).
Proof.
  intros Hn Hr. induction name as [|c name IH].
  - rewrite app_empty_l. destruct Hr as [->|[r ->]]; reflexivity.
  - simpl in Hn. apply andb_prop in Hn as [Hc Hn].
    rewrite app_String. simpl.
    destruct (Ascii.eqb c "}"); [discriminate|].
    now rewrite (IH Hn).
Qed.

Lemma strip_pair_spec (a b : ascii) (s rest : string) :
  strip_pair a b s = Some rest <-> s = String a (String b rest).
Proof.
  split.
  - destruct s as [|x [|y r]]; simpl; try discriminate.
    destruct (Ascii.eqb_spec x a) as [->|]; [|discriminate].
    destruct (Ascii.eqb_spec y b) as [->|]; [|discriminate].
    now intros [= ->].
  - intros ->. simpl. now rewrite !Ascii.eqb_refl.
Qed.

(** [match_token] decides the declarative reading of the pattern. *)
Lemma match_token_spec (s field rest : string) :
  match_token s = Some (field, rest) <-> token_at s field rest.
Proof.
  unfold token_at, match_token. split.
  - destruct (strip_pair "{" "{" s) as [body|] eqn:Hs; [|discriminate].
    apply strip_pair_spec in Hs as ->.
    destruct (span_name body) as [n r] eqn:E.
    destruct (span_name_split _ _ _ E) as (-> & Hn & _).
    destruct n as [|c n]; [discriminate|].
    destruct (strip_pair "}" "}" r) as [rest'|] eqn:Hr; [|discriminate].
    apply strip_pair_spec in Hr as ->.
    intros [= <- <-]. repeat split; [discriminate|exact Hn].
  - intros (-> & Hne & Hcf).
    change ("{{" +:+ field +:+ "}}" +:+ rest)
      with (String "{" (String "{" (field +:+ String "}" (String "}" rest)))).
    cbn [strip_pair]. rewrite !Ascii.eqb_refl. cbn [andb].
    rewrite span_name_app; [|exact Hcf|right; eauto].
    destruct field; [now contradiction Hne|].
    cbn [strip_pair]. now rewrite !Ascii.eqb_refl.
Qed.

Lemma match_token_empty : match_token "" = None.
Proof. reflexivity. Qed.

(** A match is at least five characters long, so what follows it is
    shorter than the text it was found in. *)
Lemma match_token_shorter (s field rest : string) :
  match_token s = Some (field, rest) -> String.length rest < String.length s.
Proof.
  intros H. apply match_token_spec in H as (-> & _ & _).
  rewrite !length_app_string. simpl. lia.
Qed.

(** No match opens with a character other than the opening brace. *)
Lemma match_token_other (c : ascii) (s : string) :
  c <> "{"%char -> match_token (String c s) = None.
Proof.
  intros Hc. unfold match_token. destruct s as [|d s]; [reflexivity|].
  simpl. now destruct (Ascii.eqb_spec c "{").
Qed.

(* --------------------------------------------------------------------- *)
(** ** The scan                                                           *)
(* --------------------------------------------------------------------- *)

Section Scan.
Variable callback : string -> string.

(** Any fuel at least the length of the text gives the same result. *)
Lemma replace_tokens_fuel (fuel fuel' : nat) (s : string) :
  String.length s <= fuel -> String.length s <= fuel' ->
  replace_tokens callback fuel s = replace_tokens callback fuel' s.
Proof.
  revert fuel' s. induction fuel as [|fuel IH]; intros fuel' s Hs Hs'.
  - destruct s; [|simpl in Hs; lia]. now destruct fuel'.
  - destruct fuel' as [|fuel'].
    + destruct s; [reflexivity|simpl in Hs'; lia].
    + simpl. destruct (match_token s) as [[field rest]|] eqn:E.
      * apply match_token_shorter in E. f_equal. apply IH; lia.
      * destruct s as [|c s]; [reflexivity|].
        simpl in Hs, Hs'. f_equal. apply IH; lia.
Qed.

Lemma replace_tokens_match (s field rest : string) :
  match_token s = Some (field, rest) ->
  replace_tokens callback (String.length s) s
  = callback field +:+ replace_tokens callback (String.length rest) rest.
Proof.
  intros E. pose proof (match_token_shorter _ _ _ E) as Hlt.
  destruct (String.length s) as [|n] eqn:Hn; [lia|].
  simpl. rewrite E. f_equal. apply replace_tokens_fuel; lia.
Qed.

Lemma replace_tokens_skip (c : ascii) (s : string) :
  match_token (String c s) = None ->
  replace_tokens callback (String.length (String c s)) (String c s)
  = String c (replace_tokens callback (String.length s) s).
Proof. intros E. simpl. now rewrite E. Qed.

(** Where the pattern matches nowhere the text comes back unchanged. *)
Lemma replace_tokens_no_token (s : string) :
  has_token s = false ->
  replace_tokens callback (String.length s) s = s.
Proof.
  induction s as [|c s IH]; [reflexivity|].
  intros H. simpl in H.
  destruct (match_token (String c s)) eqn:E; [discriminate|].
  rewrite replace_tokens_skip by exact E. now rewrite IH.
Qed.

(** A token after brace-free text is the first match: the text before it
    is copied, the callback's result stands for the token, and the scan
    goes on behind the token. *)
Lemma replace_tokens_token (pre name post : string) :
  open_free pre = true -> name <> "" -> close_free name = true ->
  replace_tokens callback
    (String.length (pre +:+ "{{" +:+ name +:+ "}}" +:+ post))
    (pre +:+ "{{" +:+ name +:+ "}}" +:+ post)
  = pre +:+ callback name +:+ replace_tokens callback (String.length post) post.
Proof.
  intros Hpre Hne Hcf. induction pre as [|c pre IH].
  - rewrite !app_empty_l. apply replace_tokens_match.
    apply match_token_spec. now repeat split.
  - simpl in Hpre. apply andb_prop in Hpre as [Hc Hpre].
    rewrite !(app_String c pre). rewrite replace_tokens_skip.
    + now rewrite IH.
    + apply match_token_other. intros ->. discriminate.
Qed.
End Scan.

Lemma has_token_unfold (s : string) :
  has_token s = match match_token s with
                | Some _ => true
                | None => match s with
                          | EmptyString => false
                          | String _ s' => has_token s'
                          end
                end.
Proof. now destruct s. Qed.

(** [has_token] decides [contains_token]. *)
Lemma has_token_spec (s : string) : has_token s = true <-> contains_token s.
Proof.
  split.
  - induction s as [|c s IH]; rewrite has_token_unfold.
    + rewrite match_token_empty. discriminate.
    + destruct (match_token (String c s)) as [[field rest]|] eqn:E.
      * intros _. apply match_token_spec in E as (E & Hne & Hcf).
        exists "", field, rest. now rewrite app_empty_l.
      * intros H. destruct (IH H) as (pre & field & rest & -> & Hne & Hcf).
        exists (String c pre), field, rest. now rewrite (app_String c pre).
  - intros (pre & field & rest & -> & Hne & Hcf).
    induction pre as [|c pre IH]; rewrite has_token_unfold.
    + rewrite app_empty_l.
      assert (match_token ("{{" +:+ field +:+ "}}" +:+ rest) = Some (field, rest)) as ->
        by (apply match_token_spec; now repeat split).
      reflexivity.
    + rewrite (app_String c pre).
      destruct (match_token _); [reflexivity|exact IH].
Qed.

(** The spec's looser reading of "token" (an opening pair with a closing
    pair somewhere behind it) covers the pattern's. *)
Lemma split_at_pair_unfold (a b c d : ascii) (rest : string) :
  split_at_pair a b (String c (String d rest))
  = if Ascii.eqb c a && Ascii.eqb d b then Some ("", rest)
    else match split_at_pair a b (String d rest) with
         | Some (pre, post) => Some (String c pre, post)
         | None => None
         end.
Proof. reflexivity. Qed.

Lemma split_at_pair_spec (a b : ascii) (s pre post : string) :
  split_at_pair a b s = Some (pre, post) ->
  s = pre +:+ String a (String b post).
Proof.
  revert pre post. induction s as [|c s IH]; intros pre post; [discriminate|].
  destruct s as [|d rest]; [discriminate|].
  rewrite split_at_pair_unfold.
  destruct (Ascii.eqb_spec c a) as [->|Hc];
    [destruct (Ascii.eqb_spec d b) as [->|Hd]|]; cbn [andb].
  - now intros [= <- <-].
  - destruct (split_at_pair a b (String d rest)) as [[p q]|]; [|discriminate].
    intros [= <- <-]. rewrite (app_String a p). f_equal. now apply IH.
  - destruct (split_at_pair a b (String d rest)) as [[p q]|]; [|discriminate].
    intros [= <- <-]. rewrite (app_String c p). f_equal. now apply IH.
Qed.

Lemma split_at_pair_complete (a b : ascii) (pre post : string) :
  split_at_pair a b (pre +:+ String a (String b post)) <> None.
Proof.
  induction pre as [|c pre IH].
  - rewrite app_empty_l, split_at_pair_unfold, !Ascii.eqb_refl. discriminate.
  - rewrite (app_String c pre).
    destruct (pre +:+ String a (String b post)) as [|d rest] eqn:E.
    + now destruct pre.
    + rewrite split_at_pair_unfold.
      destruct (Ascii.eqb c a && Ascii.eqb d b); [discriminate|].
      destruct (split_at_pair a b (String d rest)) as [[p q]|]; [discriminate|].
      now contradiction IH.
Qed.

(* --------------------------------------------------------------------- *)
(** ** [renderDynamicText]                                                *)
(* --------------------------------------------------------------------- *)


Lemma renderDynamicText_match (s field rest : string) :
  match_token s = Some (field, rest) ->
  renderDynamicText s = replacer field +:+ renderDynamicText rest.
Proof. apply replace_tokens_match. Qed.

Lemma renderDynamicText_skip (c : ascii) (s : string) :
  match_token (String c s) = None ->
  renderDynamicText (String c s) = String c (renderDynamicText s).
Proof. apply replace_tokens_skip. Qed.

Lemma renderDynamicText_token (pre name post : string) :
  open_free pre = true -> name <> "" -> close_free name = true ->
  renderDynamicText (pre +:+ "{{" +:+ name +:+ "}}" +:+ post)
  = pre +:+ replacer name +:+ renderDynamicText post.
Proof. apply replace_tokens_token. Qed.

(** The markup variant is the same function. *)
Lemma renderRichTextWithDynamicFields_eq (html : string) :
  renderRichTextWithDynamicFields html = renderDynamicText html.
Proof. reflexivity. Qed.

(** *** The lookup table *)

Lemma replacer_known :
  replacer "first-name" = "Sarah" /\ replacer "last-name" = "Johnson"
  /\ replacer "company" = "Acme Corp" /\ replacer "gift-name" = "Premium Package".
Proof. repeat split; reflexivity. Qed.

(** A name that is neither in the table nor a property of
    [Object.prototype] comes back in brackets. *)
Lemma replacer_unknown (name : string) :
  sampleData !! name = None ->
  object_prototype_get name = JsUndefined ->
  replacer name = "[" +:+ name +:+ "]".
Proof.
  intros Hown Hproto. unfold replacer, get_property.
  now rewrite Hown, Hproto.
Qed.

(** A name outside the table that [Object.prototype] does define is not
    bracketed: the text of the inherited property stands in its place. *)
Lemma replacer_inherited (name : string) :
  sampleData !! name = None ->
  object_prototype_get name <> JsUndefined ->
  replacer name <> "[" +:+ name +:+ "]".
Proof.
  intros Hown Hproto. unfold replacer, get_property. rewrite Hown.
  unfold object_prototype_get in *.
  destruct (String.eqb_spec name "constructor") as [->|_]; [discriminate|].
  destruct (String.eqb_spec name "__proto__") as [->|_]; [discriminate|].
  destruct (existsb _ _); [discriminate|]. now contradiction Hproto.
Qed.

Example renderDynamicText_first_name : renderDynamicText "Hi {{first-name}}" = "Hi Sarah".
Proof. reflexivity. Qed.

Example renderDynamicText_unknown : renderDynamicText "{{unknown}}" = "[unknown]".
Proof. reflexivity. Qed.

Example renderDynamicText_default_title (now : Date) :
  renderDynamicText (title (defaultData now))
  = "Hello Sarah, You've Got a Special Gift!".
Proof. reflexivity. Qed.

(** C1, at the names an object literal inherits: the table lookup
    [sampleData[field]] goes through the prototype chain, so a token named
    after a property of [Object.prototype] is replaced by the text of that
    property and not by the bracketed name the fallback was written to
    give. *)
Theorem renderDynamicText_inherited_property :
  renderDynamicText "{{constructor}}" = "function Object() { [native code] }"
  /\ renderDynamicText "{{constructor}}" <> "[constructor]"
  /\ renderDynamicText "{{__proto__}}" = "[object Object]"
  /\ renderDynamicText "see {{toString}}" = "see function toString() { [native code] }".
Proof. repeat split; try reflexivity. discriminate. Qed.

(** *** The shape of a token *)

Example renderDynamicText_brace_in_name : renderDynamicText "{{a}b}}" = "{{a}b}}".
Proof. reflexivity. Qed.

Example spec_substitute_brace_in_name : spec_substitute "{{a}b}}" = "[a}b]".
Proof. reflexivity. Qed.

Example renderDynamicText_empty_name : renderDynamicText "{{}} {{x}}" = "{{}} [x]".
Proof. reflexivity. Qed.

(** A replacement is not scanned again: the bracketed name below, read
    together with the text behind it, would hold a token. *)
Example renderDynamicText_no_rescan :
  renderDynamicText "{{{{a}}b}}" = "[{{a]b}}"
  /\ renderDynamicText (renderDynamicText "{{{{a}}b}}") = "[[a]b]".
Proof. split; reflexivity. Qed.



(** *** Token-free text *)

(** C8: a text in which the token pattern matches nowhere is returned as it
    is. *)
Theorem renderDynamicText_token_free (T : string) :
  has_token T = false -> renderDynamicText T = T.
Proof. apply replace_tokens_no_token. Qed.

Lemma renderDynamicText_token_free_witness :
  has_token "50% off {today} }} only {{" = false
  /\ renderDynamicText "50% off {today} }} only {{" = "50% off {today} }} only {{".
Proof.
  split; [reflexivity|].
  apply (renderDynamicText_token_free "50% off {today} }} only {{"). reflexivity.
Defined.

(** The same with "token" read declaratively. *)
Corollary renderDynamicText_without_token (T : string) :
  ~ contains_token T -> renderDynamicText T = T.
Proof.
  intros H. apply replace_tokens_no_token.
  destruct (has_token T) eqn:E; [|reflexivity].
  exfalso. apply H. now apply has_token_spec.
Qed.

Lemma split_at_pair_cons (a b c : ascii) (s : string) :
  split_at_pair a b s <> None -> split_at_pair a b (String c s) <> None.
Proof.
  destruct s as [|d r]; [intros H; now contradiction H|].
  intros H. rewrite split_at_pair_unfold.
  destruct (Ascii.eqb c a && Ascii.eqb d b); [discriminate|].
  destruct (split_at_pair a b (String d r)) as [[p q]|]; [discriminate|exact H].
Qed.

Lemma split_at_pair_app (a b : ascii) (u s : string) :
  split_at_pair a b s <> None -> split_at_pair a b (u +:+ s) <> None.
Proof.
  intros H. induction u as [|c u IH]; [exact H|].
  rewrite (app_String c u). now apply split_at_pair_cons.
Qed.

(** Text with an opening pair and, behind it, a closing pair holds a token
    in the spec's reading. *)
Lemma spec_has_token_app (pre t : string) :
  split_at_pair "}" "}" t <> None ->
  spec_has_token (pre +:+ "{{" +:+ t) = true.
Proof.
  intros Ht. induction pre as [|c pre IH].
  - rewrite app_empty_l. unfold spec_has_token.
    change ("{{" +:+ t) with (String "{" (String "{" t)).
    rewrite split_at_pair_unfold. simpl.
    now destruct (split_at_pair "}" "}" t).
  - rewrite (app_String c pre). unfold spec_has_token in *.
    destruct (pre +:+ "{{" +:+ t) as [|d r] eqn:E; [now destruct pre|].
    rewrite split_at_pair_unfold.
    destruct (Ascii.eqb c "{" && Ascii.eqb d "{").
    + assert (split_at_pair "}" "}" r <> None) as Hr.
      { destruct pre as [|d' pre'].
        - rewrite app_empty_l in E.
          change ("{{" +:+ t) with (String "{" (String "{" t)) in E.
          injection E as _ <-. now apply split_at_pair_cons.
        - rewrite (app_String d' pre') in E. injection E as _ <-.
          apply split_at_pair_app.
          change ("{{" +:+ t) with (String "{" (String "{" t)).
          now do 2 apply split_at_pair_cons. }
      now destruct (split_at_pair "}" "}" r).
    + destruct (split_at_pair "{" "{" (String d r)) as [[p q]|]; [exact IH|discriminate].
Qed.

(** The pattern's tokens are tokens in the spec's reading too. *)
Lemma has_token_spec_has_token (s : string) :
  has_token s = true -> spec_has_token s = true.
Proof.
  intros H. apply has_token_spec in H as (pre & field & rest & -> & _ & _).
  apply spec_has_token_app.
  change ("}}" +:+ rest) with (String "}" (String "}" rest)).
  apply split_at_pair_complete.
Qed.

(** Token-free text in the spec's reading of "token": text without an
    opening pair that has a closing pair behind it comes back unchanged. *)
Corollary renderDynamicText_without_spec_token (T : string) :
  spec_has_token T = false -> renderDynamicText T = T.
Proof.
  intros H. apply replace_tokens_no_token.
  destruct (has_token T) eqn:E; [|reflexivity].
  apply has_token_spec_has_token in E. congruence.
Qed.

(** Conversely a text with a token does change: where the first token
    stood, the result has a character other than an opening brace. *)
Lemma replacer_head (field : string) :
  exists c out, replacer field = String c out /\ c <> "{"%char.
Proof.
  unfold replacer, get_property, js_or.
  destruct (sampleData !! field) as [v|] eqn:Hown.
  - destruct v as [|c v]; cbn [ToBoolean ToString].
    + exists "["%char. eexists. split; [reflexivity|discriminate].
    + exists c, v. split; [reflexivity|].
      intros ->. revert Hown. unfold sampleData.
      rewrite !lookup_insert, lookup_singleton.
      repeat case_decide; discriminate.
  - unfold object_prototype_get.
    destruct (String.eqb field "constructor");
      [exists "f"%char; eexists; split; [reflexivity|discriminate]|].
    destruct (String.eqb field "__proto__");
      [exists "["%char; eexists; split; [reflexivity|discriminate]|].
    destruct (existsb _ _);
      [exists "f"%char; eexists; split; [reflexivity|discriminate]|].
    exists "["%char. eexists. split; [reflexivity|discriminate].
Qed.

Lemma renderDynamicText_changes_tokens (T : string) :
  has_token T = true -> renderDynamicText T <> T.
Proof.
  induction T as [|c T IH]; [discriminate|].
  rewrite has_token_unfold.
  destruct (match_token (String c T)) as [[field rest]|] eqn:E.
  - intros _. rewrite (renderDynamicText_match _ _ _ E).
    destruct (replacer_head field) as (a & out & -> & Ha).
    apply match_token_spec in E as (E & _).
    change ("{{" +:+ field +:+ "}}" +:+ rest)
      with (String "{" (String "{" (field +:+ "}}" +:+ rest))) in E.
    rewrite E, app_String. intros [= -> _]. now apply Ha.
  - intros H. rewrite (renderDynamicText_skip _ _ E).
    intros [= Heq]. now apply IH.
Qed.

(* --------------------------------------------------------------------- *)
(** ** [mergeInitialData]                                                 *)
(* --------------------------------------------------------------------- *)

Lemma spread_string_cases (x : option string) (dflt : string) :
  (spread_string x dflt = dflt /\ (x = None \/ x = Some ""))
  \/ (x = Some (spread_string x dflt) /\ spread_string x dflt <> "").
Proof.
  destruct x as [[|c s]|]; simpl; auto.
Qed.

(** A merged string differs from the default only if the seed gave it. *)
Lemma spread_string_only_when_given (x : option string) (dflt : string) :
  spread_string x dflt <> dflt -> x = Some (spread_string x dflt).
Proof.
  destruct (spread_string_cases x dflt) as [[H _]|[H _]]; [|auto].
  intros Hne. now contradiction Hne.
Qed.

Lemma spread_string_given (v dflt : string) :
  v <> "" -> spread_string (Some v) dflt = v.
Proof. destruct v; [now intros H; contradiction H|reflexivity]. Qed.

Lemma mergeButton_omitted (dflt : Button.t) (b : option Initial.button) :
  Button.show (mergeButton dflt b) = Button.show dflt
  /\ (chain b Initial.text = None ->
      Button.text (mergeButton dflt b) = Button.text dflt)
  /\ (chain b Initial.url = None ->
      Button.url (mergeButton dflt b) = Button.url dflt)
  /\ (chain b Initial.color = None ->
      Button.color (mergeButton dflt b) = Button.color dflt).
Proof. unfold mergeButton; simpl. repeat split; now intros ->. Qed.

Lemma mergeButton_given (dflt : Button.t) (b : Initial.button) (v : string) :
  v <> "" ->
  (Initial.text b = Some v -> Button.text (mergeButton dflt (Some b)) = v)
  /\ (Initial.url b = Some v -> Button.url (mergeButton dflt (Some b)) = v)
  /\ (Initial.color b = Some v -> Button.color (mergeButton dflt (Some b)) = v).
Proof.
  intros Hv. unfold mergeButton; simpl.
  repeat split; intros ->; now apply spread_string_given.
Qed.

Lemma mergeButton_none (dflt : Button.t) : mergeButton dflt None = dflt.
Proof. now destruct dflt. Qed.

(** C3: a top-level field of the merged document differs from the default
    only when the seed provides that field, and then it is the seed's
    value; the fields the seed cannot name keep their default; the two
    buttons are merged key by key, every key the seed leaves out keeping
    its default and every non-empty key it gives being taken.  Hence the
    url of button1 survives a seed that only names its text, and the empty
    seed (like no seed at all) gives back the defaults. *)
Theorem mergeInitialData_merge (defaults : LandingPageData) (initial : Initial.t) :
  let merged := mergeInitialData defaults (Some initial) in
  (* top-level scalars *)
  ((logo merged <> logo defaults -> Initial.logo initial = Some (logo merged))
   /\ (title merged <> title defaults -> Initial.title initial = Some (title merged))
   /\ (description merged <> description defaults ->
       Initial.description initial = Some (description merged))
   /\ (resourceUrl merged <> resourceUrl defaults ->
       Initial.resourceUrl initial = Some (resourceUrl merged))
   /\ (resourceType merged <> resourceType defaults ->
       Initial.resourceType initial = Some (resourceType merged))
   /\ (selectedDate merged <> selectedDate defaults ->
       Initial.selectedDate initial = selectedDate merged)
   /\ (showDate merged <> showDate defaults ->
       Initial.showDate initial = Some (showDate merged)))
  (* fields outside the seed *)
  /\ (titleColor merged = titleColor defaults
      /\ descriptionColor merged = descriptionColor defaults
      /\ dateColor merged = dateColor defaults
      /\ background merged = background defaults)
  (* nested buttons, key by key *)
  /\ (forall (n : ButtonNum) (seed : option Initial.button),
         seed = match n with
                | One => Initial.button1 initial
                | Two => Initial.button2 initial
                end ->
         Button.show (get_button n merged) = Button.show (get_button n defaults)
         /\ (chain seed Initial.text = None ->
             Button.text (get_button n merged) = Button.text (get_button n defaults))
         /\ (chain seed Initial.url = None ->
             Button.url (get_button n merged) = Button.url (get_button n defaults))
         /\ (chain seed Initial.color = None ->
             Button.color (get_button n merged) = Button.color (get_button n defaults))
         /\ (forall v, v <> "" -> chain seed Initial.text = Some v ->
                       Button.text (get_button n merged) = v)
         /\ (forall v, v <> "" -> chain seed Initial.url = Some v ->
                       Button.url (get_button n merged) = v)
         /\ (forall v, v <> "" -> chain seed Initial.color = Some v ->
                       Button.color (get_button n merged) = v))
  (* the spec's two instances *)
  /\ (forall X,
         Initial.button1 initial = Some (Initial.mkButton (Some X) None None) ->
         Button.url (button1 merged) = Button.url (button1 defaults))
  /\ mergeInitialData defaults (Some Initial.empty) = defaults
  /\ mergeInitialData defaults None = defaults.
Proof.
  intros merged. subst merged. unfold mergeInitialData.
  split; [|split; [|split; [|split; [|split]]]].
  - cbn [logo title description resourceUrl resourceType selectedDate showDate].
    repeat split; try apply spread_string_only_when_given.
    + destruct (Initial.resourceType initial); [reflexivity|]. intros H; now contradiction H.
    + destruct (Initial.selectedDate initial); [reflexivity|]. intros H; now contradiction H.
    + destruct (Initial.showDate initial); [reflexivity|]. intros H; now contradiction H.
  - repeat split.
  - intros n seed ->.
    destruct n; cbn [get_button button1 button2].
    + destruct (mergeButton_omitted (button1 defaults) (Initial.button1 initial))
        as (Hs & Ht & Hu & Hc).
      repeat split; auto; intros v Hv; destruct (Initial.button1 initial) as [b|];
        try discriminate; cbn [chain]; now apply mergeButton_given.
    + destruct (mergeButton_omitted (button2 defaults) (Initial.button2 initial))
        as (Hs & Ht & Hu & Hc).
      repeat split; auto; intros v Hv; destruct (Initial.button2 initial) as [b|];
        try discriminate; cbn [chain]; now apply mergeButton_given.
  - intros X HX. cbn [button1]. rewrite HX. reflexivity.
  - cbn. rewrite !mergeButton_none. now destruct defaults, selectedDate0.
  - reflexivity.
Qed.

(** Without a seed the component mounts with the defaults. *)
Lemma initialState_default (sink : bool) (now : Date) :
  initialState (mkProps sink None) now = defaultData now
  /\ initialState (mkProps sink (Some Initial.empty)) now = defaultData now.
Proof. split; reflexivity. Qed.

Example mergeInitialData_button_text (now : Date) :
  let seed :=
    Initial.mk None None None (Some (Initial.mkButton (Some "X") None None))
               None None None None None in
  button1 (mergeInitialData (defaultData now) (Some seed))
  = Button.mk true "X" "#" "#7C3AED".
Proof. reflexivity. Qed.

(** C10: an empty string given for logo, title, description or resourceUrl
    does not override: the merged document keeps the default there. *)
Theorem mergeInitialData_empty_string_ignored
    (defaults : LandingPageData) (initial : Initial.t) :
  let merged := mergeInitialData defaults (Some initial) in
  (Initial.logo initial = Some "" -> logo merged = logo defaults)
  /\ (Initial.title initial = Some "" -> title merged = title defaults)
  /\ (Initial.description initial = Some "" ->
      description merged = description defaults)
  /\ (Initial.resourceUrl initial = Some "" ->
      resourceUrl merged = resourceUrl defaults).
Proof. cbn. repeat split; now intros ->. Qed.

Example mergeInitialData_blank_title (now : Date) :
  let seed := Initial.mk None (Some "") None None None None None None None in
  mergeInitialData (defaultData now) (Some seed) = defaultData now.
Proof. reflexivity. Qed.

(* --------------------------------------------------------------------- *)
(** ** The update handlers                                                *)
(* --------------------------------------------------------------------- *)

Lemma get_set_field (k : Key.t) (v : Key.value k) (d : LandingPageData) :
  get_field k (set_field k v d) = v.
Proof. now destruct k. Qed.

Lemma get_set_field_other (k k' : Key.t) (v : Key.value k) (d : LandingPageData) :
  k' <> k -> get_field k' (set_field k v d) = get_field k' d.
Proof. destruct k, k'; try reflexivity; intros H; now contradiction H. Qed.

Lemma button_get_set (f : Button.key) (v : Button.value f) (b : Button.t) :
  Button.get f (Button.set f v b) = v.
Proof. now destruct f. Qed.

Lemma button_get_set_other (f f' : Button.key) (v : Button.value f) (b : Button.t) :
  f' <> f -> Button.get f' (Button.set f v b) = Button.get f' b.
Proof. destruct f, f'; try reflexivity; intros H; now contradiction H. Qed.

Lemma background_get_set (f : Background.key) (v : Background.value f)
    (b : Background.t) :
  Background.get f (Background.set f v b) = v.
Proof. now destruct f. Qed.

Lemma background_get_set_other (f f' : Background.key) (v : Background.value f)
    (b : Background.t) :
  f' <> f -> Background.get f' (Background.set f v b) = Background.get f' b.
Proof. destruct f, f'; try reflexivity; intros H; now contradiction H. Qed.

(** Writing back what is already there changes nothing. *)
Lemma background_set_get (f : Background.key) (b : Background.t) :
  Background.set f (Background.get f b) b = b.
Proof. now destruct f, b. Qed.

Lemma background_set_set (f : Background.key) (v w : Background.value f)
    (b : Background.t) :
  Background.set f w (Background.set f v b) = Background.set f w b.
Proof. now destruct f. Qed.

Lemma set_field_set_field (k : Key.t) (v w : Key.value k) (d : LandingPageData) :
  set_field k w (set_field k v d) = set_field k w d.
Proof. now destruct k. Qed.

Lemma set_field_get_field (k : Key.t) (d : LandingPageData) :
  set_field k (get_field k d) d = d.
Proof. now destruct k, d. Qed.

Lemma get_button_set_button (n : ButtonNum) (b : Button.t) (d : LandingPageData) :
  get_button n (set_button n b d) = b.
Proof. now destruct n. Qed.

Lemma get_field_set_button (n : ButtonNum) (k : Key.t) (b : Button.t)
    (d : LandingPageData) :
  k <> button_key n -> get_field k (set_button n b d) = get_field k d.
Proof. destruct n; apply get_set_field_other. Qed.

(** Whatever the sink, React is handed the new snapshot first. *)
Lemma commit_update (props : LandingPageDesignerProps) (data newData : LandingPageData) :
  commit data (SetData newData :: notify props newData) = newData.
Proof. unfold commit, notify. now destruct (onDataChange props). Qed.

Lemma commit_updateBackground (props : LandingPageDesignerProps)
    (data : LandingPageData) (f : Background.key) (v : Background.value f) :
  commit data (updateBackground props data f v)
  = set_field Key.background (Background.set f v (background data)) data.
Proof. apply commit_update. Qed.

(** C4: [updateBackground] replaces the one background field it names and
    keeps every other background field and every other field of the
    document; so switching the type to gradient and back to solid leaves
    the solid colour (and both gradient stops and the direction) as they
    were, and a document that was solid is back where it started. *)
Theorem updateBackground_retains (props : LandingPageDesignerProps)
    (data : LandingPageData) :
  (forall (field : Background.key) (value : Background.value field),
      let newData := commit data (updateBackground props data field value) in
      Background.get field (background newData) = value
      /\ (forall field', field' <> field ->
            Background.get field' (background newData)
            = Background.get field' (background data))
      /\ (forall k, k <> Key.background -> get_field k newData = get_field k data))
  /\ (let toGradient :=
        commit data (updateBackground props data Background.k_type gradient) in
      let backToSolid :=
        commit toGradient (updateBackground props toGradient Background.k_type solid) in
      Background.type (background toGradient) = gradient
      /\ Background.color (background toGradient) = Background.color (background data)
      /\ Background.type (background backToSolid) = solid
      /\ Background.color (background backToSolid) = Background.color (background data)
      /\ (forall field, field <> Background.k_type ->
            Background.get field (background backToSolid)
            = Background.get field (background data))
      /\ (Background.type (background data) = solid -> backToSolid = data)).
Proof.
  split.
  - intros field value newData. subst newData.
    rewrite commit_updateBackground. repeat split.
    + cbn [get_field set_field background]. apply background_get_set.
    + intros field' Hne. cbn [get_field set_field background].
      now apply background_get_set_other.
    + intros k Hk. now apply get_set_field_other.
  - cbv zeta. rewrite !commit_updateBackground.
    cbn [set_field background Background.set Background.type Background.color].
    repeat split.
    + intros field Hne. destruct field; try reflexivity. now contradiction Hne.
    + intros Hsolid. destruct data as [? ? ? ? ? ? ? ? ? ? ? ? bg].
      cbn in *. destruct bg. cbn in *. now subst.
Qed.

Example updateBackground_toggle (props : LandingPageDesignerProps) (now : Date) :
  let data :=
    commit (defaultData now)
           (updateBackground props (defaultData now) Background.k_color "#123456") in
  let toGradient :=
    commit data (updateBackground props data Background.k_type gradient) in
  let backToSolid :=
    commit toGradient (updateBackground props toGradient Background.k_type solid) in
  background backToSolid = Background.mk solid "#123456" "#7C3AED" "#A855F7" to_br
  /\ getBackgroundStyle toGradient
     = Style "background" "linear-gradient(to bottom right, #7C3AED, #A855F7)"
  /\ getBackgroundStyle backToSolid = Style "backgroundColor" "#123456".
Proof. destruct props as [[] ?]; repeat split. Qed.

Lemma dispatch_effects (props : LandingPageDesignerProps)
    (data : LandingPageData) (u : Update) :
  dispatch props data u
  = SetData (snapshot data u) :: notify props (snapshot data u).
Proof. now destruct u. Qed.

Lemma commit_app (data : LandingPageData) (effects effects' : list Effect) :
  commit data (effects ++ effects') = commit (commit data effects) effects'.
Proof. apply fold_left_app. Qed.

Lemma sink_calls_app (effects effects' : list Effect) :
  sink_calls (effects ++ effects') = (sink_calls effects ++ sink_calls effects')%list.
Proof. apply flat_map_app. Qed.

(** Over a series of edits the sink is called once per edit, in order, each
    time with the document as it then stands; nothing is batched. *)
Lemma session_sink_calls (props : LandingPageDesignerProps)
    (data : LandingPageData) (us : list Update) :
  sink_calls (session props data us)
  = (if onDataChange props then snapshots data us else [])
  /\ commit data (session props data us) = fold_left snapshot us data.
Proof.
  revert data. induction us as [|u us IH]; intros data.
  - now destruct (onDataChange props).
  - cbn [session snapshots]. rewrite sink_calls_app, commit_app, dispatch_effects.
    rewrite commit_update. destruct (IH (snapshot data u)) as [-> ->].
    split; [|reflexivity].
    unfold notify. now destruct (onDataChange props).
Qed.

(** C5: each of the three handlers builds one new snapshot, the prior
    document with the one named field replaced and every other field as it
    was, hands it to React and then calls the sink, once, with that whole
    snapshot; without a sink only the state is set.  Over a series of calls
    the sink gets one call per handler call, in call order, each with the
    document as it then stands. *)
Theorem update_handlers_snapshot (props : LandingPageDesignerProps)
    (data : LandingPageData) :
  let effects_of newData :=
    if onDataChange props
    then [SetData newData; OnDataChange newData]
    else [SetData newData] in
  (* updateData *)
  (forall k v,
      let newData := set_field k v data in
      updateData props data k v = effects_of newData
      /\ get_field k newData = v
      /\ (forall k', k' <> k -> get_field k' newData = get_field k' data))
  (* updateButton *)
  /\ (forall n f v,
         let newData := set_button n (Button.set f v (get_button n data)) data in
         updateButton props data n f v = effects_of newData
         /\ Button.get f (get_button n newData) = v
         /\ (forall f', f' <> f ->
               Button.get f' (get_button n newData) = Button.get f' (get_button n data))
         /\ (forall k, k <> button_key n -> get_field k newData = get_field k data))
  (* updateBackground *)
  /\ (forall f v,
         let newData :=
           set_field Key.background (Background.set f v (background data)) data in
         updateBackground props data f v = effects_of newData
         /\ Background.get f (background newData) = v
         /\ (forall f', f' <> f ->
               Background.get f' (background newData)
               = Background.get f' (background data))
         /\ (forall k, k <> Key.background -> get_field k newData = get_field k data))
  (* what a call leaves behind: the state React commits and what the sink got *)
  /\ (forall u,
         commit data (dispatch props data u) = snapshot data u
         /\ sink_calls (dispatch props data u)
            = if onDataChange props then [snapshot data u] else [])
  (* a series of calls: one call of the sink per handler call, in order *)
  /\ (forall us,
         sink_calls (session props data us)
         = (if onDataChange props then snapshots data us else [])
         /\ commit data (session props data us) = fold_left snapshot us data).
Proof.
  intros effects_of.
  assert (forall newData, SetData newData :: notify props newData = effects_of newData)
    as Heffects.
  { intros newData. subst effects_of. unfold notify.
    now destruct (onDataChange props). }
  split; [|split; [|split; [|split]]].
  - intros k v newData. subst newData. split; [apply Heffects|].
    split; [apply get_set_field|].
    intros k'. apply get_set_field_other.
  - intros n f v newData. subst newData. split; [apply Heffects|].
    rewrite get_button_set_button. repeat split.
    + apply button_get_set.
    + intros f'. apply button_get_set_other.
    + intros k. apply get_field_set_button.
  - intros f v newData. subst newData. split; [apply Heffects|].
    cbn [set_field background]. repeat split.
    + apply background_get_set.
    + intros f'. apply background_get_set_other.
    + intros k Hk. now apply (get_set_field_other Key.background).
  - intros u. rewrite dispatch_effects, commit_update. split; [reflexivity|].
    unfold notify, sink_calls. now destruct (onDataChange props).
  - apply session_sink_calls.
Qed.

Example updateButton_example (now : Date) :
  updateButton (mkProps true None) (defaultData now) Two Button.k_text "Details"
  = let newData :=
      set_field Key.button2 (Button.mk true "Details" "#" "#6B7280") (defaultData now) in
    [SetData newData; OnDataChange newData].
Proof. reflexivity. Qed.

(* --------------------------------------------------------------------- *)
(** ** The two layout modes                                               *)
(* --------------------------------------------------------------------- *)

(** Induction on render trees, with the hypothesis for every child. *)
Fixpoint Node_forall_ind (P : Node -> Prop)
    (HElem : forall tag cls attrs children,
        Forall P children -> P (Elem tag cls attrs children))
    (HText : forall s, P (Text s)) (n : Node) : P n :=
  match n with
  | Elem tag cls attrs children =>
      HElem tag cls attrs children
        ((fix all (l : list Node) : Forall P l :=
            match l with
            | [] => @List.Forall_nil _ P
            | x :: l' =>
                @List.Forall_cons _ P x l' (Node_forall_ind P HElem HText x) (all l')
            end) children)
  | Text s => HText s
  end.

Lemma own_text_erase (children : list Node) :
  own_text (map erase_classes children) = own_text children.
Proof.
  induction children as [|[tag cls attrs ch|s] rest IH]; simpl;
    [reflexivity|exact IH|now rewrite IH].
Qed.

(** Erasing the classes keeps the elements, their attributes and their
    children, the children with their classes erased in turn. *)
Lemma elements_erase (n : Node) :
  elements (erase_classes n)
  = map (fun '(tag, attrs, children) => (tag, attrs, map erase_classes children))
        (elements n).
Proof.
  induction n as [tag cls attrs children IH|s] using Node_forall_ind; [|reflexivity].
  simpl. f_equal. induction IH as [|x l Hx _ IHl]; [reflexivity|].
  simpl. now rewrite List.map_app, Hx, IHl.
Qed.

(** A reading of the elements that does not tell a child from its erased
    version reads the same from a tree and from the erased tree. *)
Lemma read_erase {A : Type} (f : string * list Attr * list Node -> list A) (n : Node) :
  (forall tag attrs children,
      f (tag, attrs, map erase_classes children) = f (tag, attrs, children)) ->
  flat_map f (elements (erase_classes n)) = flat_map f (elements n).
Proof.
  intros Hf. rewrite elements_erase.
  induction (elements n) as [|[[tag attrs] children] l IH]; [reflexivity|].
  simpl. now rewrite Hf, IH.
Qed.

Lemma semantic_content_erase (n : Node) :
  semantic_content (erase_classes n) = semantic_content n.
Proof.
  unfold semantic_content, texts_of, inner_html, link_buttons, date_line.
  f_equal; apply read_erase; intros tag attrs children.
  - now rewrite own_text_erase.
  - reflexivity.
  - now rewrite own_text_erase.
  - destruct children as [|[t c a ch|s] rest]; try reflexivity.
    simpl. now rewrite own_text_erase.
Qed.

Lemma click_handlers_erase (n : Node) :
  click_handlers (erase_classes n) = click_handlers n.
Proof. unfold click_handlers. now apply read_erase. Qed.

Lemma has_text_input_erase (n : Node) :
  has_text_input (erase_classes n) = has_text_input n.
Proof.
  unfold has_text_input. rewrite elements_erase.
  induction (elements n) as [|[[tag attrs] children] l IH]; [reflexivity|].
  simpl. now rewrite IH.
Qed.

Section RenderFacts.
Variable format : Date -> string -> string.

(** The two modes differ in class names only. *)
Lemma render_erase_classes (mode : PreviewMode) (pulse : bool)
    (fb : FeedbackState) (data : LandingPageData) :
  erase_classes (renderLandingPageContent format mode pulse fb data)
  = erase_classes (renderLandingPageContent format desktop pulse fb data).
Proof.
  destruct mode; [|reflexivity].
  unfold renderLandingPageContent, FeedbackModal, feedbackAffordance,
    actionButton, ratingSection.
  generalize (renderDynamicText (title data))
             (renderRichTextWithDynamicFields (description data)).
  intros t h.
  destruct fb as [modal rating ft rec txt].
  destruct data as [? ? ? ? ? sd [d|] ? rt ? [s1 ? ? ?] [s2 ? ? ?] ?].
  all: cbn [showFeedbackModal showRating feedbackType isRecording textFeedback
            showDate selectedDate resourceType button1 button2 Button.show].
  all: destruct modal, rating, ft, rec, sd, rt, s1, s2; reflexivity.
Qed.

Lemma getBackgroundStyle_is_style (data : LandingPageData) :
  exists property value, getBackgroundStyle data = Style property value.
Proof. unfold getBackgroundStyle. destruct (Background.type _); eauto. Qed.

Lemma semantic_content_desktop (pulse : bool) (fb : FeedbackState)
    (data : LandingPageData) :
  semantic_content (renderLandingPageContent format desktop pulse fb data)
  = mkContent [renderDynamicText (title data)]
              [renderRichTextWithDynamicFields (description data)]
              (shown_buttons data) (shown_date format data).
Proof.
  unfold renderLandingPageContent, FeedbackModal, feedbackAffordance,
    actionButton, ratingSection, shown_buttons, shown_date.
  destruct (getBackgroundStyle_is_style data) as (property & value & ->).
  generalize (renderDynamicText (title data))
             (renderRichTextWithDynamicFields (description data)).
  intros t h.
  destruct fb as [modal rating ft rec txt].
  destruct data as [? ? ? ? ? sd [d|] ? rt ? [s1 t1 u1 ?] [s2 t2 u2 ?] ?].
  all: cbn [showFeedbackModal showRating feedbackType isRecording textFeedback
            showDate selectedDate resourceType button1 button2
            Button.show Button.text Button.url].
  all: destruct modal, rating, ft, rec, sd, rt, s1, s2;
    cbv - [append trim ToBoolean]; rewrite ?app_empty_r; reflexivity.
Qed.
End RenderFacts.

(** C6: the compact and the wide render of a document expose the same
    content: the substituted headline, the substituted description markup,
    label and target of each shown button, and the formatted date when the
    date is shown; the two renders are the same tree up to class names,
    which carry the layout and the type scale. *)
Theorem render_modes_same_content (format : Date -> string -> string)
    (pulse : bool) (fb : FeedbackState) (data : LandingPageData) :
  let compact := renderLandingPageContent format mobile pulse fb data in
  let wide := renderLandingPageContent format desktop pulse fb data in
  semantic_content compact = semantic_content wide
  /\ semantic_content wide
     = mkContent [renderDynamicText (title data)]
                 [renderRichTextWithDynamicFields (description data)]
                 (shown_buttons data) (shown_date format data)
  /\ erase_classes compact = erase_classes wide.
Proof.
  intros compact wide. subst compact wide.
  pose proof (render_erase_classes format mobile pulse fb data) as E.
  repeat split; [|apply semantic_content_desktop|exact E].
  rewrite <- (semantic_content_erase (renderLandingPageContent format mobile _ _ _)).
  rewrite E. apply semantic_content_erase.
Qed.

Example render_default_content (format : Date -> string -> string) (now : Date) :
  semantic_content
    (renderLandingPageContent format mobile true initialFeedback (defaultData now))
  = mkContent
      ["Hello Sarah, You've Got a Special Gift!"]
      ["We're excited to share something special with you, Sarah. Your gift is on its way, and we wanted to create this personalized experience just for you."]
      [("Track My Gift", "#"); ("Learn More", "#")]
      [format now "MMMM d, yyyy"].
Proof.
  rewrite <- semantic_content_erase, render_erase_classes, semantic_content_erase.
  now rewrite semantic_content_desktop.
Qed.

(* --------------------------------------------------------------------- *)
(** ** The feedback machine                                               *)
(* --------------------------------------------------------------------- *)

Section FeedbackFacts.
Variable format : Date -> string -> string.

Lemma click_handlers_view (e : Env) (s : FeedbackState) :
  click_handlers (view format e s) = attached (env_data e) s.
Proof.
  unfold view. rewrite <- click_handlers_erase, render_erase_classes,
    click_handlers_erase.
  destruct e as [mode pulse data]. cbn [env_mode env_pulse env_data].
  unfold renderLandingPageContent, FeedbackModal, feedbackAffordance,
    actionButton, ratingSection, attached.
  destruct (getBackgroundStyle_is_style data) as (property & value & ->).
  generalize (renderDynamicText (title data))
             (renderRichTextWithDynamicFields (description data))
             (ToBoolean (JsString (trim (textFeedback s)))).
  intros t h ok.
  destruct s as [modal rating ft rec txt].
  destruct data as [? ? ? ? ? sd [d|] ? rt ? [s1 t1 u1 ?] [s2 t2 u2 ?] ?].
  all: cbn [showFeedbackModal showRating feedbackType isRecording textFeedback
            showDate selectedDate resourceType button1 button2
            Button.show Button.text Button.url].
  all: destruct modal, rating, ft, rec, ok, sd, rt, s1, s2;
    cbv - [append]; reflexivity.
Qed.

Lemma has_text_input_view (e : Env) (s : FeedbackState) :
  has_text_input (view format e s)
  = showFeedbackModal s
    && match feedbackType s with
       | FeedbackType.text => true
       | FeedbackType.video => false
       end.
Proof.
  unfold view. rewrite <- has_text_input_erase, render_erase_classes,
    has_text_input_erase.
  destruct e as [mode pulse data]. cbn [env_mode env_pulse env_data].
  unfold renderLandingPageContent, FeedbackModal, feedbackAffordance,
    actionButton, ratingSection.
  destruct (getBackgroundStyle_is_style data) as (property & value & ->).
  generalize (renderDynamicText (title data))
             (renderRichTextWithDynamicFields (description data))
             (ToBoolean (JsString (trim (textFeedback s)))).
  intros t h ok.
  destruct s as [modal rating ft rec txt].
  destruct data as [? ? ? ? ? sd [d|] ? rt ? [s1 t1 u1 ?] [s2 t2 u2 ?] ?].
  all: cbn [showFeedbackModal showRating feedbackType isRecording textFeedback
            showDate selectedDate resourceType button1 button2
            Button.show Button.text Button.url].
  all: destruct modal, rating, ft, rec, ok, sd, rt, s1, s2;
    cbv - [append]; reflexivity.
Qed.
End FeedbackFacts.

Section FeedbackMachine.
Variable format : Date -> string -> string.

Lemma fires_view (e : Env) (s : FeedbackState) (h : Handler) :
  fires (view format e s) h <->
  In h (attached (env_data e) s)
  \/ (exists value, h = SetTextFeedback value
                    /\ showFeedbackModal s = true
                    /\ feedbackType s = FeedbackType.text).
Proof.
  split.
  - intros [h' Hin|value Hinput].
    + left. now rewrite <- (click_handlers_view format).
    + right. exists value. rewrite (has_text_input_view format) in Hinput.
      destruct (showFeedbackModal s), (feedbackType s); try discriminate.
      now repeat split.
  - intros [Hin|(value & -> & Hm & Ht)].
    + apply fires_click. now rewrite (click_handlers_view format).
    + apply fires_input. rewrite (has_text_input_view format), Hm, Ht. reflexivity.
Qed.

(** The handler that closes the modal is never attached with [false]:
    nothing but [handleFeedbackModalClose] takes the modal down. *)
Lemma fires_not_hide (e : Env) (s : FeedbackState) :
  ~ fires (view format e s) (SetShowFeedbackModal false).
Proof.
  rewrite fires_view. intros [Hin|(value & [=] & _)].
  unfold attached in Hin. rewrite !in_app_iff in Hin.
  destruct (Button.show (button1 (env_data e))),
    (Button.show (button2 (env_data e))),
    (showRating s), (showFeedbackModal s), (feedbackType s), (isRecording s),
    (ToBoolean (JsString (trim (textFeedback s))));
    simpl in Hin; intuition discriminate.
Qed.

(** A step never leads into [Idle] from outside of it. *)
Lemma step_not_idle (s s' : FeedbackState) (ev : Event) :
  step format s ev s' -> phase s <> Idle -> phase s' <> Idle.
Proof.
  intros [e h Hf|] Hs.
  2:{ unfold phase in *. simpl.
      destruct (showFeedbackModal s); [discriminate|exact Hs]. }
  destruct h as [url target|[|]| | |t| |value].
  - exact Hs.
  - unfold phase. simpl. discriminate.
  - now apply (fires_not_hide e s) in Hf.
  - unfold phase. simpl. discriminate.
  - unfold phase. simpl. discriminate.
  - unfold phase in *. simpl.
    destruct (showFeedbackModal s); [discriminate|exact Hs].
  - unfold phase in *. simpl.
    destruct (showFeedbackModal s); [discriminate|exact Hs].
  - unfold phase in *. simpl.
    destruct (showFeedbackModal s); [discriminate|exact Hs].
Qed.

Lemma run_not_idle (s s' : FeedbackState) (evs : list Event) :
  run format s evs s' -> phase s <> Idle -> phase s' <> Idle.
Proof.
  induction 1 as [|s ev evs s' s'' Hstep _ IH]; [auto|].
  intros Hs. apply IH. now apply (step_not_idle s s' ev).
Qed.

(** From [Idle] a step stays where it is (a link button), mounts the
    modal anew or opens it. *)
Lemma step_from_idle (s s' : FeedbackState) (ev : Event) :
  step format s ev s' -> phase s = Idle ->
  s' = s \/ s' = remount s
  \/ (ev = Fire (SetShowFeedbackModal true)
      /\ phase s' = ModalOpen (feedbackType s)).
Proof.
  intros [e h Hf|] Hs; [|now right; left].
  apply fires_view in Hf. unfold phase in Hs.
  destruct (showFeedbackModal s) eqn:Hm; [discriminate|].
  destruct (showRating s) eqn:Hr; [discriminate|].
  destruct Hf as [Hin|(value & -> & [=] & _)].
  unfold attached in Hin. rewrite Hm, Hr, !in_app_iff in Hin.
  destruct Hin as [Hin|[Hin|[Hin|[]]]].
  - destruct (Button.show _); [|contradiction].
    destruct Hin as [<-|[]]. now left.
  - destruct (Button.show _); [|contradiction].
    destruct Hin as [<-|[]]. now left.
  - destruct Hin as [<-|[]]. right. right. split; [reflexivity|].
    unfold phase. reflexivity.
Qed.

(** A run that ends in [Idle] began there and never left the initial
    state, if it began in it. *)
Lemma run_idle (s s' : FeedbackState) (evs : list Event) :
  run format s evs s' -> phase s' = Idle ->
  phase s = Idle /\ (s = initialFeedback -> s' = initialFeedback).
Proof.
  induction 1 as [|s ev evs s' s'' Hstep Hrun IH]; [auto|].
  intros Hidle. destruct (IH Hidle) as [Hs' Hinit].
  assert (phase s = Idle) as Hs.
  { destruct (phase s) eqn:E; [reflexivity| |];
      exfalso; apply (step_not_idle s s' ev Hstep); congruence. }
  split; [exact Hs|]. intros ->. apply Hinit.
  destruct (step_from_idle _ _ _ Hstep Hs) as [->|[->|[_ Hp]]];
    [reflexivity|reflexivity|congruence].
Qed.

(** The only reachable state in [Idle] is the initial one. *)
Lemma reachable_idle (s : FeedbackState) :
  reachable format s -> phase s = Idle -> s = initialFeedback.
Proof.
  intros [evs Hrun] Hidle. now apply (run_idle _ _ _ Hrun).
Qed.
End FeedbackMachine.

Lemma phase_modal_open (s : FeedbackState) (m : FeedbackType.t) :
  phase s = ModalOpen m <-> showFeedbackModal s = true /\ feedbackType s = m.
Proof.
  unfold phase. destruct (showFeedbackModal s), (showRating s); split; intros H;
    try discriminate.
  all: try (injection H as <-; now split).
  all: destruct H as [H1 H2]; first [discriminate|now subst].
Qed.

Lemma ToBoolean_string (s : string) : ToBoolean (JsString s) = true <-> s <> "".
Proof. destruct s; simpl; split; congruence. Qed.

(** Membership in the list of attached handlers, case by case. *)
Ltac attached_cases H :=
  try unfold attached in H; rewrite ?in_app_iff in H;
  repeat match type of H with
         | context [if ?b then _ else _] => destruct b eqn:?
         end;
  simpl in H; intuition (try discriminate; try congruence).

(** C7: in [Idle] the feedback button is attached and opens the modal in
    its video sub-mode; in the open modal the sub-mode switches either way;
    sending (offered in the video sub-mode exactly while recording, in the
    text sub-mode exactly when the trimmed text is not empty) and closing
    both lead to [RatingShown]; and once the machine has left [Idle] no
    run of events, handlers firing or the modal being mounted anew, brings
    it back: a run from a reachable state that ends in [Idle] has never
    left the initial state. *)
Theorem feedback_machine (format : Date -> string -> string) :
  (forall s, reachable format s -> phase s = Idle ->
      (forall e, fires (view format e s) (SetShowFeedbackModal true))
      /\ phase (handle (SetShowFeedbackModal true) s) = ModalOpen FeedbackType.video)
  /\ (forall s m e, phase s = ModalOpen m ->
        let other := match m with
                     | FeedbackType.video => FeedbackType.text
                     | FeedbackType.text => FeedbackType.video
                     end in
        fires (view format e s) (SetFeedbackType other)
        /\ phase (handle (SetFeedbackType other) s) = ModalOpen other)
  /\ (forall s m e, phase s = ModalOpen m ->
        (fires (view format e s) HandleSubmit <->
         match m with
         | FeedbackType.video => isRecording s = true
         | FeedbackType.text => trim (textFeedback s) <> ""
         end)
        /\ phase (handle HandleSubmit s) = RatingShown
        /\ fires (view format e s) OnClose
        /\ phase (handle OnClose s) = RatingShown)
  /\ (forall s evs s', run format s evs s' -> phase s <> Idle -> phase s' <> Idle)
  /\ (forall s evs s', reachable format s -> run format s evs s' -> phase s' = Idle ->
        s = initialFeedback /\ s' = initialFeedback).
Proof.
  split; [|split; [|split; [|split]]].
  - intros s Hreach Hidle. apply (reachable_idle format) in Hreach as ->; [|exact Hidle].
    split; [|reflexivity].
    intros e. apply fires_view. left. unfold attached.
    rewrite !in_app_iff. right. right. left. now left.
  - intros s m e Hm other. subst other.
    apply phase_modal_open in Hm as [Hopen Hty]. split.
    + apply fires_view. left. unfold attached. rewrite Hopen, Hty, !in_app_iff.
      do 3 right. destruct m; simpl; auto.
    + apply phase_modal_open. simpl. now split.
  - intros s m e Hm. apply phase_modal_open in Hm as [Hopen Hty].
    split; [|split; [|split]].
    + rewrite fires_view. split.
      * intros [Hin|(value & [=] & _)].
        unfold attached in Hin. rewrite Hopen, Hty in Hin.
        destruct m; [|apply ToBoolean_string]; attached_cases Hin.
      * intros Hok. left. unfold attached. rewrite Hopen, Hty, !in_app_iff.
        do 3 right. destruct m.
        -- rewrite Hok. simpl. auto.
        -- apply ToBoolean_string in Hok. rewrite Hok. simpl. auto.
    + unfold phase. reflexivity.
    + apply fires_view. left. unfold attached. rewrite Hopen, !in_app_iff.
      do 3 right. now left.
    + unfold phase. reflexivity.
  - intros s evs s'. apply run_not_idle.
  - intros s evs s' Hreach Hrun Hidle.
    destruct (run_idle format _ _ _ Hrun Hidle) as [Hs Hinit].
    assert (s = initialFeedback) as -> by now apply (reachable_idle format).
    split; [reflexivity|now apply Hinit].
Qed.

(** A session: open, switch to text, type, the modal is mounted anew (and
    forgets the text), type again, send. *)
Example feedback_session (format : Date -> string -> string) (e : Env) :
  let events :=
    [ Fire (SetShowFeedbackModal true); Fire (SetFeedbackType FeedbackType.text);
      Fire (SetTextFeedback "Thanks!"); Remount;
      Fire (SetFeedbackType FeedbackType.text); Fire (SetTextFeedback " Bye ");
      Fire HandleSubmit ] in
  run format initialFeedback events
      (mkFeedback false true FeedbackType.text false " Bye ").
Proof.
  repeat (eapply run_cons;
          [first [ apply step_remount
                 | apply (step_fire format _ e); apply fires_view;
                   first [ left; unfold attached; rewrite !in_app_iff; right; right;
                           vm_compute; solve [intuition auto]
                         | right; eexists; repeat split ] ]
          |]);
    cbn [handle handleFeedbackModalClose remount showFeedbackModal showRating
         feedbackType isRecording textFeedback].
  apply run_nil.
Qed.

(* --------------------------------------------------------------------- *)
(** ** The contact card                                                   *)
(* --------------------------------------------------------------------- *)


(* ===================================================================== *)
(** * Part III: further properties of the code                            *)
(* ===================================================================== *)

(* --------------------------------------------------------------------- *)
(** ** Substitution over joined texts                                     *)
(* --------------------------------------------------------------------- *)

Lemma close_free_app (s t : string) :
  close_free (s +:+ t) = close_free s && close_free t.
Proof.
  induction s as [|c s IH]; [reflexivity|].
  rewrite (app_String c s). simpl. rewrite IH. now rewrite andb_assoc.
Qed.

Lemma tail_safe_app (s t : string) :
  tail_safe (s +:+ t) = true -> tail_safe t = true.
Proof.
  induction s as [|c s IH]; [auto|].
  rewrite (app_String c s). simpl. intros H.
  apply andb_prop in H as [_ H]. now apply IH.
Qed.

(** The greedy run stops inside [s] when [s] has a closing brace. *)
Lemma span_name_app_l (s t : string) :
  close_free s = false ->
  span_name (s +:+ t) = (fst (span_name s), snd (span_name s) +:+ t).
Proof.
  induction s as [|c s IH]; [discriminate|].
  rewrite (app_String c s). simpl.
  destruct (Ascii.eqb c "}"); simpl; [reflexivity|].
  intros H. rewrite (IH H). now destruct (span_name s).
Qed.

Lemma span_name_rest (s : string) :
  close_free s = false -> exists r, snd (span_name s) = String "}" r.
Proof.
  induction s as [|c s IH]; [discriminate|]. simpl.
  destruct (Ascii.eqb_spec c "}") as [->|Hc]; simpl.
  - intros _. now exists s.
  - intros H. destruct (IH H) as [r Hr]. exists r.
    now destruct (span_name s).
Qed.

(** Text joined behind [s] does not change what the pattern finds at the
    head of [s], as long as [s] leaves no token unfinished and the joined
    text does not open with a closing brace. *)
Lemma match_token_app (s t : string) :
  s <> "" -> tail_safe s = true -> starts_with_close t = false ->
  match_token (s +:+ t)
  = match match_token s with
    | Some (field, rest) => Some (field, rest +:+ t)
    | None => None
    end.
Proof.
  intros Hs Hsafe Ht.
  destruct (match_token s) as [[field rest]|] eqn:E.
  - apply match_token_spec in E as (-> & Hne & Hcf).
    apply match_token_spec. repeat split; [|exact Hne|exact Hcf].
    now rewrite !app_assoc_string.
  - destruct s as [|a s]; [now contradiction Hs|].
    destruct (Ascii.eqb_spec a "{") as [->|Ha];
      [|rewrite (app_String a s); now apply match_token_other].
    simpl in Hsafe. apply andb_prop in Hsafe as [Hclose Hsafe].
    apply negb_true_iff in Hclose.
    destruct s as [|b body]; [discriminate|].
    rewrite !app_String. unfold match_token in *. cbn [strip_pair] in *.
    rewrite Ascii.eqb_refl in *. cbn [andb] in *.
    destruct (Ascii.eqb_spec b "{") as [->|Hb]; [|reflexivity].
    assert (close_free body = false) as Hbody.
    { simpl in Hclose. exact Hclose. }
    rewrite (span_name_app_l body t Hbody).
    destruct (span_name_rest body Hbody) as [r Hr].
    destruct (span_name body) as [n after]. simpl in *. subst after.
    destruct n as [|c n]; [reflexivity|].
    rewrite (app_String "}" r).
    destruct r as [|d r].
    + rewrite app_empty_l. destruct t as [|x t]; [reflexivity|].
      simpl in Ht. cbn [strip_pair]. rewrite Ascii.eqb_refl, Ht. reflexivity.
    + rewrite (app_String d r). cbn [strip_pair] in *.
      rewrite Ascii.eqb_refl in *. cbn [andb] in *.
      destruct (Ascii.eqb d "}"); [discriminate|reflexivity].
Qed.

Lemma tail_safe_rest (s field rest : string) :
  match_token s = Some (field, rest) -> tail_safe s = true -> tail_safe rest = true.
Proof.
  intros E H. apply match_token_spec in E as (-> & _ & _).
  rewrite <- !app_assoc_string in H. now apply tail_safe_app in H.
Qed.

Lemma replace_tokens_app (callback : string -> string) (fuel : nat) (s t : string) :
  String.length s <= fuel ->
  tail_safe s = true -> starts_with_close t = false ->
  replace_tokens callback (String.length (s +:+ t)) (s +:+ t)
  = replace_tokens callback (String.length s) s
    +:+ replace_tokens callback (String.length t) t.
Proof.
  revert s. induction fuel as [|fuel IH]; intros s Hlen Hsafe Ht.
  - destruct s; [reflexivity|simpl in Hlen; lia].
  - destruct s as [|c s]; [reflexivity|].
    assert (String c s <> "") as Hne by discriminate.
    pose proof (match_token_app (String c s) t Hne Hsafe Ht) as Happ.
    destruct (match_token (String c s)) as [[field rest]|] eqn:E.
    + rewrite (replace_tokens_match callback _ _ _ Happ).
      rewrite (replace_tokens_match callback _ _ _ E).
      pose proof (match_token_shorter _ _ _ E) as Hshort.
      rewrite IH; [now rewrite app_assoc_string| lia | |exact Ht].
      now apply (tail_safe_rest _ _ _ E).
    + rewrite (app_String c s) in *.
      rewrite (replace_tokens_skip callback _ _ Happ).
      rewrite (replace_tokens_skip callback _ _ E).
      simpl in Hlen, Hsafe. apply andb_prop in Hsafe as [_ Hsafe].
      rewrite IH; [reflexivity|lia|exact Hsafe|exact Ht].
Qed.

(** X1: substitution distributes over joining two texts when the first
    leaves no token unfinished (each of its opening braces has a closing
    brace behind it) and the second does not open with a closing brace. *)
Theorem renderDynamicText_app (s t : string) :
  tail_safe s = true -> starts_with_close t = false ->
  renderDynamicText (s +:+ t) = renderDynamicText s +:+ renderDynamicText t.
Proof. intros Hs Ht. now apply (replace_tokens_app replacer (String.length s)). Qed.

Lemma renderDynamicText_app_witness :
  renderDynamicText ("Dear {{first-name}} {x}, " +:+ "welcome to {{company}}")
  = renderDynamicText "Dear {{first-name}} {x}, "
    +:+ renderDynamicText "welcome to {{company}}".
Proof.
  apply (renderDynamicText_app "Dear {{first-name}} {x}, " "welcome to {{company}}");
    reflexivity.
Defined.

(** Without the condition the two sides differ: the unfinished token of the
    first text swallows the head of the second. *)
Example renderDynamicText_app_unfinished :
  renderDynamicText ("{{a" +:+ "{{company}}") = "[a{{company]"
  /\ renderDynamicText "{{a" +:+ renderDynamicText "{{company}}" = "{{aAcme Corp".
Proof. split; reflexivity. Qed.

(** X2: a quick-add button of the headline appends its sample value to the
    previewed headline, provided the headline leaves no token unfinished;
    the document changes in its title only. *)
Theorem addTitleField_preview (props : LandingPageDesignerProps)
    (data : LandingPageData) (q : QuickField) :
  tail_safe (title data) = true ->
  let newData := commit data (addTitleField props data q) in
  renderDynamicText (title newData)
  = renderDynamicText (title data) +:+ quick_value q
  /\ (forall k, k <> Key.title -> get_field k newData = get_field k data).
Proof.
  intros Hsafe newData. subst newData. unfold addTitleField, updateData.
  rewrite commit_update. split.
  - cbn [title set_field]. unfold renderDynamicText.
    rewrite (replace_tokens_app replacer (String.length (title data)));
      [|lia|exact Hsafe|now destruct q].
    now destruct q.
  - intros k Hk. now apply get_set_field_other.
Qed.

Lemma addTitleField_preview_witness :
  let data := defaultData 0%Z in
  let newData := commit data (addTitleField (mkProps true None) data company) in
  renderDynamicText (title newData)
  = "Hello Sarah, You've Got a Special Gift!Acme Corp".
Proof.
  cbv zeta.
  rewrite (proj1 (addTitleField_preview (mkProps true None) (defaultData 0%Z) company
                    eq_refl)).
  reflexivity.
Defined.

(* --------------------------------------------------------------------- *)
(** ** Substitution and markup characters                                 *)
(* --------------------------------------------------------------------- *)

Lemma count_char_app (c : ascii) (s t : string) :
  count_char c (s +:+ t) = count_char c s + count_char c t.
Proof.
  induction s as [|x s IH]; [reflexivity|].
  rewrite (app_String x s). simpl. rewrite IH. lia.
Qed.

(** The replacement of a token holds as many angle brackets as its name. *)
Lemma replacer_count_angle (c : ascii) (field : string) :
  c = "<"%char \/ c = ">"%char ->
  count_char c (replacer field) = count_char c field.
Proof.
  intros Hc. unfold replacer, get_property, js_or.
  destruct (sampleData !! field) as [v|] eqn:Hown.
  - unfold sampleData in Hown.
    rewrite !lookup_insert, lookup_singleton in Hown.
    repeat case_decide; try discriminate; subst field;
      injection Hown as <-; destruct Hc as [->| ->]; reflexivity.
  - unfold object_prototype_get.
    destruct (String.eqb_spec field "constructor") as [->|_];
      [destruct Hc as [->| ->]; reflexivity|].
    destruct (String.eqb_spec field "__proto__") as [->|_];
      [destruct Hc as [->| ->]; reflexivity|].
    destruct (existsb _ _); cbn [ToBoolean ToString];
      rewrite !count_char_app; destruct Hc as [->| ->]; simpl; lia.
Qed.

Lemma replace_tokens_count_angle (c : ascii) (fuel : nat) (s : string) :
  c = "<"%char \/ c = ">"%char ->
  String.length s <= fuel ->
  count_char c (replace_tokens replacer (String.length s) s) = count_char c s.
Proof.
  intros Hc. revert s. induction fuel as [|fuel IH]; intros s Hlen.
  - destruct s; [reflexivity|simpl in Hlen; lia].
  - destruct (match_token s) as [[field rest]|] eqn:E.
    + rewrite (replace_tokens_match replacer _ _ _ E), count_char_app.
      pose proof (match_token_shorter _ _ _ E) as Hshort.
      rewrite IH by lia. rewrite replacer_count_angle by exact Hc.
      apply match_token_spec in E as (-> & _ & _).
      rewrite !count_char_app. destruct Hc as [->| ->]; simpl; lia.
    + destruct s as [|x s]; [reflexivity|].
      rewrite (replace_tokens_skip replacer _ _ E). simpl in *.
      rewrite IH by lia. reflexivity.
Qed.

(** X3: substitution neither adds nor removes an angle bracket: the
    description's markup goes through with exactly the tag delimiters it
    came with, whatever tokens it holds. *)
Theorem renderRichTextWithDynamicFields_keeps_angle_brackets (htmlContent : string) :
  count_char "<" (renderRichTextWithDynamicFields htmlContent)
  = count_char "<" htmlContent
  /\ count_char ">" (renderRichTextWithDynamicFields htmlContent)
     = count_char ">" htmlContent.
Proof.
  split; apply (replace_tokens_count_angle _ (String.length htmlContent));
    auto.
Qed.

Example renderRichText_markup :
  renderRichTextWithDynamicFields "<b>Hi {{first-name}}</b> {{<i>}}"
  = "<b>Hi Sarah</b> [<i>]".
Proof. reflexivity. Qed.

(* --------------------------------------------------------------------- *)
(** ** Section visibility                                                 *)
(* --------------------------------------------------------------------- *)

(** X4: toggling a group flips its flag and no other; toggling it twice
    gives back the flags as they were; and toggles of any two groups can be
    swapped. *)
Theorem toggleSection_independent (a b : OpenSections.key) (prev : OpenSections.t) :
  OpenSections.get a (toggleSection a prev) = negb (OpenSections.get a prev)
  /\ (a <> b ->
      OpenSections.get b (toggleSection a prev) = OpenSections.get b prev)
  /\ toggleSection a (toggleSection a prev) = prev
  /\ toggleSection a (toggleSection b prev) = toggleSection b (toggleSection a prev).
Proof.
  destruct prev as [l bg c m bt].
  repeat split.
  - now destruct a.
  - intros Hab. destruct a, b; try reflexivity; now contradiction Hab.
  - destruct a; cbn; now rewrite negb_involutive.
  - destruct a, b; reflexivity.
Qed.

Example toggleSection_initial :
  toggleSection OpenSections.k_media OpenSections.initial
  = OpenSections.mk true true true false true.
Proof. reflexivity. Qed.

(* --------------------------------------------------------------------- *)
(** ** Edits the preview cannot show                                      *)
(* --------------------------------------------------------------------- *)

(** X5: [getBackgroundStyle] reads the fields of the selected path only:
    an update of a background field of the other path leaves the style as
    it was. *)
Theorem getBackgroundStyle_inactive_path (props : LandingPageDesignerProps)
    (data : LandingPageData) (field : Background.key)
    (value : Background.value field) (path : BackgroundType) :
  background_path field = Some path ->
  Background.type (background data) <> path ->
  getBackgroundStyle (commit data (updateBackground props data field value))
  = getBackgroundStyle data.
Proof.
  intros Hpath Hty. rewrite commit_updateBackground.
  unfold getBackgroundStyle. cbn [background set_field].
  destruct data as [? ? ? ? ? ? ? ? ? ? ? ? [ty c gf gt gd]].
  cbn [background Background.type] in *.
  destruct field; try discriminate; injection Hpath as <-;
    destruct ty; try reflexivity; now contradiction Hty.
Qed.

Lemma getBackgroundStyle_inactive_path_witness :
  getBackgroundStyle
    (commit (defaultData 0%Z)
       (updateBackground (mkProps true None) (defaultData 0%Z)
          Background.k_gradientFrom "#000000"))
  = Style "backgroundColor" "#FFFFFF".
Proof.
  rewrite (getBackgroundStyle_inactive_path (mkProps true None) (defaultData 0%Z)
             Background.k_gradientFrom "#000000" gradient eq_refl);
    [reflexivity|discriminate].
Defined.



Lemma image_sources_erase (n : Node) :
  image_sources (erase_classes n) = image_sources n.
Proof. unfold image_sources. now apply read_erase. Qed.

Lemma image_sources_desktop (format : Date -> string -> string) (pulse : bool)
    (fb : FeedbackState) (data : LandingPageData) :
  image_sources (renderLandingPageContent format desktop pulse fb data)
  = (or_string (logo data) "/placeholder.svg"
     :: match resourceType data with
        | image => [or_string (resourceUrl data) "/placeholder.svg"]
        | video => []
        end)%list.
Proof.
  unfold renderLandingPageContent, FeedbackModal, feedbackAffordance,
    actionButton, ratingSection.
  destruct (getBackgroundStyle_is_style data) as (property & value & ->).
  generalize (renderDynamicText (title data))
             (renderRichTextWithDynamicFields (description data))
             (ToBoolean (JsString (trim (textFeedback fb)))).
  intros t h ok.
  destruct fb as [modal rating ft rec txt].
  destruct data as [lg ? ? ? ? sd [d|] ? rt ru [s1 t1 u1 ?] [s2 t2 u2 ?] ?].
  all: cbn [showFeedbackModal showRating feedbackType isRecording textFeedback
            showDate selectedDate resourceType button1 button2 logo resourceUrl
            Button.show Button.text Button.url].
  all: generalize (or_string lg "/placeholder.svg")
                  (or_string ru "/placeholder.svg"); intros src1 src2.
  all: destruct modal, rating, ft, rec, ok, sd, rt, s1, s2;
    cbv - [append]; reflexivity.
Qed.

Lemma or_string_nonempty (s dflt : string) : dflt <> "" -> or_string s dflt <> "".
Proof. intros H. now destruct s. Qed.

(** X7: every image of the preview has a source: an empty logo or resource
    URL is replaced by the placeholder, and a video shows no image for its
    URL at all. *)
Theorem render_image_sources (format : Date -> string -> string)
    (mode : PreviewMode) (pulse : bool) (fb : FeedbackState)
    (data : LandingPageData) :
  let sources :=
    image_sources (renderLandingPageContent format mode pulse fb data) in
  Forall (fun src => src <> "") sources
  /\ sources
     = (or_string (logo data) "/placeholder.svg"
        :: match resourceType data with
           | image => [or_string (resourceUrl data) "/placeholder.svg"]
           | video => []
           end)%list
  /\ (logo data = "" -> hd "" sources = "/placeholder.svg").
Proof.
  intros sources. subst sources.
  rewrite <- image_sources_erase, render_erase_classes, image_sources_erase,
    image_sources_desktop.
  repeat split.
  - constructor; [now apply or_string_nonempty|].
    destruct (resourceType data); constructor;
      [now apply or_string_nonempty|constructor].
  - intros ->. reflexivity.
Qed.

(** X8: whatever the show flags of the two buttons, the preview holds
    exactly one "Leave a message" button until the rating is shown, and none
    afterwards. *)
Theorem render_one_feedback_button (format : Date -> string -> string)
    (e : Env) (s : FeedbackState) :
  length (List.filter is_feedback_button (click_handlers (view format e s)))
  = if showRating s then 0 else 1.
Proof.
  rewrite click_handlers_view. unfold attached.
  rewrite !List.filter_app, !length_app.
  destruct (Button.show (button1 (env_data e))),
    (Button.show (button2 (env_data e))),
    (showRating s), (showFeedbackModal s), (feedbackType s), (isRecording s),
    (ToBoolean (JsString (trim (textFeedback s)))); reflexivity.
Qed.

(* --------------------------------------------------------------------- *)
(** ** How edits compose                                                  *)
(* --------------------------------------------------------------------- *)

Lemma snapshot_independent (data : LandingPageData) (u1 u2 : Update) :
  independent u1 u2 = true ->
  snapshot (snapshot data u1) u2 = snapshot (snapshot data u2) u1.
Proof.
  intros H. destruct data as [? ? ? ? ? ? ? ? ? ? b1 b2 bg].
  destruct u1 as [k1 v1|n1 f1 v1|f1 v1], u2 as [k2 v2|n2 f2 v2|f2 v2];
    cbn [independent] in H.
  - apply bool_decide_eq_true in H.
    destruct k1, k2; try reflexivity; now contradiction H.
  - apply bool_decide_eq_true in H.
    destruct n2, k1; try reflexivity; now contradiction H.
  - apply bool_decide_eq_true in H.
    destruct k1; try reflexivity; now contradiction H.
  - apply bool_decide_eq_true in H.
    destruct n1, k2; try reflexivity; now contradiction H.
  - destruct n1, n2; try reflexivity;
      destruct f1, f2; try reflexivity; cbn in H; discriminate.
  - destruct n1; reflexivity.
  - apply bool_decide_eq_true in H.
    destruct k2; try reflexivity; now contradiction H.
  - destruct n2; reflexivity.
  - apply bool_decide_eq_true in H.
    destruct f1, f2; try reflexivity; now contradiction H.
Qed.

(** X9: two edits of different field paths, made one after the other, give
    the same document in either order, and the sink is told that document
    last either way. *)
Theorem independent_updates_commute (props : LandingPageDesignerProps)
    (data : LandingPageData) (u1 u2 : Update) :
  independent u1 u2 = true ->
  commit data (session props data [u1; u2])
  = commit data (session props data [u2; u1])
  /\ List.last (sink_calls (session props data [u1; u2])) data
     = List.last (sink_calls (session props data [u2; u1])) data.
Proof.
  intros H.
  destruct (session_sink_calls props data [u1; u2]) as [-> ->].
  destruct (session_sink_calls props data [u2; u1]) as [-> ->].
  cbn [fold_left snapshots]. rewrite (snapshot_independent data u1 u2 H).
  split; [reflexivity|]. now destruct (onDataChange props).
Qed.

Lemma independent_updates_commute_witness :
  let props := mkProps true None in
  let u1 := UpdateButton One Button.k_text "Open" in
  let u2 := UpdateButton One Button.k_color "#000000" in
  commit (defaultData 0%Z) (session props (defaultData 0%Z) [u1; u2])
  = commit (defaultData 0%Z) (session props (defaultData 0%Z) [u2; u1]).
Proof.
  cbv zeta.
  apply (independent_updates_commute (mkProps true None) (defaultData 0%Z)
           (UpdateButton One Button.k_text "Open")
           (UpdateButton One Button.k_color "#000000")).
  reflexivity.
Defined.

(** Edits of the same path do not commute: the later one stays. *)
Example same_field_last_wins (props : LandingPageDesignerProps) (now : Date) :
  title (commit (defaultData now)
           (session props (defaultData now)
              [UpdateData Key.title "A"; UpdateData Key.title "B"])) = "B".
Proof. destruct props as [[] ?]; reflexivity. Qed.

(** X10: the handlers build their snapshot from the [data] their closure
    captured.  Two calls made from one closure, before React renders again,
    thus do not add up: the state committed is the second call's snapshot of
    the captured document, without the first call's change when the two
    name different fields, while the sink has been told both snapshots. *)
Theorem updates_in_one_closure (props : LandingPageDesignerProps)
    (data : LandingPageData) :
  (forall u1 u2,
      let effects := (dispatch props data u1 ++ dispatch props data u2)%list in
      commit data effects = snapshot data u2
      /\ sink_calls effects
         = if onDataChange props then [snapshot data u1; snapshot data u2] else [])
  /\ (forall k1 v1 k2 v2,
         k1 <> k2 ->
         get_field k1
           (commit data (updateData props data k1 v1
                         ++ updateData props data k2 v2)%list)
         = get_field k1 data).
Proof.
  split.
  - intros u1 u2 effects. subst effects.
    rewrite commit_app, sink_calls_app, !dispatch_effects, !commit_update.
    split; [reflexivity|].
    unfold notify, sink_calls. now destruct (onDataChange props).
  - intros k1 v1 k2 v2 Hk. unfold updateData.
    rewrite commit_app, !commit_update. now apply get_set_field_other.
Qed.

Example updates_in_one_closure_lost (now : Date) :
  let data := defaultData now in
  let effects :=
    (updateData (mkProps true None) data Key.title "New"
     ++ updateData (mkProps true None) data Key.logo "/logo.png")%list in
  title (commit data effects) = title data
  /\ logo (commit data effects) = "/logo.png".
Proof. split; reflexivity. Qed.

(* --------------------------------------------------------------------- *)
(** ** More on [mergeInitialData]                                         *)
(* --------------------------------------------------------------------- *)

Lemma spread_string_idem (x : option string) (dflt : string) :
  spread_string x (spread_string x dflt) = spread_string x dflt.
Proof. now destruct x as [[|c s]|]. Qed.

Lemma mergeButton_idem (dflt : Button.t) (b : option Initial.button) :
  mergeButton (mergeButton dflt b) b = mergeButton dflt b.
Proof.
  unfold mergeButton. cbn [Button.show Button.text Button.url Button.color].
  now rewrite !spread_string_idem.
Qed.

(** X11: merging is idempotent in the seed: applying the same seed to an
    already merged document changes nothing. *)
Theorem mergeInitialData_idempotent (defaults : LandingPageData)
    (initial : option Initial.t) :
  mergeInitialData (mergeInitialData defaults initial) initial
  = mergeInitialData defaults initial.
Proof.
  destruct initial as [i|]; [|reflexivity].
  unfold mergeInitialData.
  cbn [logo title titleColor description descriptionColor showDate selectedDate
       dateColor resourceType resourceUrl button1 button2 background].
  rewrite !spread_string_idem, !mergeButton_idem.
  destruct (Initial.showDate i), (Initial.selectedDate i),
    (Initial.resourceType i); reflexivity.
Qed.


(* --------------------------------------------------------------------- *)
(** ** More on the feedback machine                                       *)
(* --------------------------------------------------------------------- *)

Section FeedbackInvariants.
Variable format : Date -> string -> string.

Lemma step_exclusive (s s' : FeedbackState) (ev : Event) :
  step format s ev s' -> exclusive s -> exclusive s'.
Proof.
  unfold exclusive. intros [e h Hf|] Hs; [|exact Hs].
  apply fires_view in Hf.
  destruct h as [url target|[|]| | |t| |value]; cbn; try exact Hs;
    try reflexivity.
  destruct Hf as [Hin|(value & [=] & _)].
    destruct (showRating s) eqn:Hr; [|reflexivity].
    exfalso. unfold attached in Hin. rewrite Hr in Hin.
    rewrite !in_app_iff in Hin.
    destruct (Button.show (button1 (env_data e))),
      (Button.show (button2 (env_data e))),
      (showFeedbackModal s), (feedbackType s), (isRecording s),
      (ToBoolean (JsString (trim (textFeedback s))));
      simpl in Hin; intuition discriminate.
Qed.

Lemma run_exclusive (s s' : FeedbackState) (evs : list Event) :
  run format s evs s' -> exclusive s -> exclusive s'.
Proof.
  induction 1 as [|s ev evs s' s'' Hstep _ IH]; [auto|].
  intros Hs. apply IH. now apply (step_exclusive s s' ev).
Qed.

Lemma reachable_exclusive (s : FeedbackState) :
  reachable format s -> exclusive s.
Proof. intros [evs Hrun]. now apply (run_exclusive _ _ _ Hrun). Qed.



End FeedbackInvariants.

(** X13: in every reachable state the modal and the rating are not shown
    together, so the three phases tell the states apart: the rating flag is
    up exactly in [RatingShown]. *)
Theorem feedback_modal_excludes_rating (format : Date -> string -> string)
    (s : FeedbackState) :
  reachable format s ->
  (showFeedbackModal s = true -> showRating s = false)
  /\ (phase s = RatingShown <-> showRating s = true).
Proof.
  intros Hreach. apply reachable_exclusive in Hreach. unfold exclusive in Hreach.
  unfold phase.
  destruct (showFeedbackModal s), (showRating s); try discriminate;
    repeat split; auto; discriminate.
Qed.

Lemma feedback_modal_excludes_rating_witness :
  showRating (mkFeedback true false FeedbackType.video false "") = false.
Proof.
  refine (proj1 (feedback_modal_excludes_rating
                   (fun _ _ => "December 25, 2024")
                   (mkFeedback true false FeedbackType.video false "") _) eq_refl).
  exists [Fire (SetShowFeedbackModal true)].
  eapply run_cons; [|apply run_nil].
  apply (step_fire _ initialFeedback
           (mkEnv mobile true (defaultData 0%Z)) (SetShowFeedbackModal true)).
  apply fires_click. vm_compute. tauto.
Defined.



(** *** Sending text *)







(** X16: switching the sub-mode and switching back is always possible in
    the open modal and returns the very same state: the typed text and the
    recording flag outlive the detour. *)
Theorem feedback_switch_round_trip (format : Date -> string -> string)
    (s : FeedbackState) (m : FeedbackType.t) :
  phase s = ModalOpen m ->
  let other := match m with
               | FeedbackType.video => FeedbackType.text
               | FeedbackType.text => FeedbackType.video
               end in
  run format s [Fire (SetFeedbackType other); Fire (SetFeedbackType m)] s.
Proof.
  intros Hm other. subst other.
  apply phase_modal_open in Hm as [Hopen Hty].
  pose (e := mkEnv mobile true (defaultData 0%Z)).
  destruct s as [modal rating ft rec txt]. cbn in Hopen, Hty. subst modal ft.
  eapply run_cons; [apply (step_fire format _ e)|].
  - apply fires_view. left. unfold attached. rewrite !in_app_iff. do 3 right.
    destruct m; simpl; auto.
  - eapply run_cons; [apply (step_fire format _ e)|].
    + apply fires_view. left. unfold attached. rewrite !in_app_iff. do 3 right.
      destruct m; simpl; auto.
    + destruct m; apply run_nil.
Qed.

Lemma feedback_switch_round_trip_witness :
  let s := mkFeedback true false FeedbackType.text true "draft" in
  run (fun _ _ => "December 25, 2024") s
      [Fire (SetFeedbackType FeedbackType.video); Fire (SetFeedbackType FeedbackType.text)]
      s.
Proof.
  cbv zeta.
  exact (feedback_switch_round_trip (fun _ _ => "December 25, 2024")
           (mkFeedback true false FeedbackType.text true "draft")
           FeedbackType.text eq_refl).
Defined.

(* --------------------------------------------------------------------- *)
(** ** Saving the contact card                                            *)
(* --------------------------------------------------------------------- *)

Lemma without_fresh (n : nat) (l : list nat) :
  forallb (fun m => Nat.ltb m n) l = true -> Browser.without n l = l.
Proof.
  unfold Browser.without. induction l as [|m l IH]; [reflexivity|].
  simpl. intros H. apply andb_prop in H as [Hm Hl].
  apply Nat.ltb_lt in Hm.
  destruct (Nat.eqb_spec m n); [lia|]. simpl. now rewrite IH.
Qed.

Lemma without_app_self (n : nat) (l : list nat) :
  forallb (fun m => Nat.ltb m n) l = true ->
  Browser.without n (l ++ [n]) = l.
Proof.
  intros H. unfold Browser.without. rewrite List.filter_app. simpl.
  rewrite Nat.eqb_refl. simpl. rewrite app_nil_r. now apply without_fresh.
Qed.

Lemma forallb_lt_weaken (n : nat) (l : list nat) :
  forallb (fun m => Nat.ltb m n) l = true ->
  forallb (fun m => Nat.ltb m (S n)) l = true.
Proof.
  rewrite !forallb_forall. intros H m Hm. specialize (H m Hm).
  apply Nat.ltb_lt in H. apply Nat.ltb_lt. lia.
Qed.

Lemma urls_without_fresh (n : nat) (l : list (nat * Browser.blob)) :
  forallb (fun '(u, _) => Nat.ltb u n) l = true ->
  List.filter (fun '(v, _) => negb (Nat.eqb v n)) l = l.
Proof.
  induction l as [|[u b] l IH]; [reflexivity|].
  simpl. intros H. apply andb_prop in H as [Hu Hl].
  apply Nat.ltb_lt in Hu.
  destruct (Nat.eqb_spec u n); [lia|]. simpl. now rewrite IH.
Qed.

(** X17: saving the contact never throws and cleans up after itself: the
    children of the document body and the live object URLs are afterwards
    what they were before, and exactly one file has been handed over, named
    alex-johnson.vcf, of type text/vcard, holding the card. *)
Theorem handleSaveVCard_cleans_up (w : Browser.t) :
  Browser.well_formed w = true ->
  exists w',
    handleSaveVCard w = Some w'
    /\ Browser.body w' = Browser.body w
    /\ Browser.object_urls w' = Browser.object_urls w
    /\ Browser.downloads w'
       = (Browser.downloads w
          ++ [Browser.mkDownload "alex-johnson.vcf" "text/vcard" vCardData])%list.
Proof.
  intros Hwf. destruct w as [body urls n dl].
  unfold Browser.well_formed in Hwf. cbn in Hwf.
  apply andb_prop in Hwf as [Hbody Hurls].
  unfold handleSaveVCard, Browser.createObjectURL, Browser.createElement,
    Browser.appendChild, Browser.click, Browser.removeChild,
    Browser.revokeObjectURL, Browser.lookup_url.
  cbn [Browser.body Browser.object_urls Browser.fresh Browser.downloads
       Browser.href Browser.id Browser.download_name].
  cbn [List.filter]. rewrite Nat.eqb_refl.
  cbn [Browser.body Browser.object_urls Browser.fresh Browser.downloads
       Browser.parts Browser.type].
  rewrite (without_fresh (S n) body) by now apply forallb_lt_weaken.
  rewrite existsb_app. cbn [existsb]. rewrite Nat.eqb_refl, orb_true_r.
  eexists. split; [reflexivity|].
  cbn [Browser.body Browser.object_urls Browser.fresh Browser.downloads].
  repeat split.
  - apply without_app_self. now apply forallb_lt_weaken.
  - cbn [List.filter]. rewrite Nat.eqb_refl. cbn [negb].
    now apply urls_without_fresh.
Qed.

Lemma handleSaveVCard_cleans_up_witness :
  exists w',
    handleSaveVCard (Browser.mk [0; 1] [] 2 []) = Some w'
    /\ Browser.body w' = [0; 1]
    /\ Browser.object_urls w' = []
    /\ Browser.downloads w'
       = [Browser.mkDownload "alex-johnson.vcf" "text/vcard" vCardData].
Proof.
  exact (handleSaveVCard_cleans_up (Browser.mk [0; 1] [] 2 []) eq_refl).
Defined.

(* --------------------------------------------------------------------- *)
(** ** Keyboard shortcuts                                                 *)
(* --------------------------------------------------------------------- *)

Lemma toLowerCase_letter (k : string) (lower upper : ascii) :
  (lower = "b" /\ upper = "B" \/ lower = "i" /\ upper = "I"
   \/ lower = "u" /\ upper = "U")%char ->
  toLowerCase k = String lower "" <->
  k = String lower "" \/ k = String upper "".
Proof.
  intros Hl. destruct k as [|c [|d k]]; simpl.
  - split; [discriminate|intros [|]; discriminate].
  - split.
    + intros [= H].
      destruct Hl as [[-> ->]|[[-> ->]|[-> ->]]];
        destruct c as [[] [] [] [] [] [] [] []]; try discriminate H; auto.
    + destruct Hl as [[-> ->]|[[-> ->]|[-> ->]]]; intros [[= ->]|[= ->]]; reflexivity.
  - split; [discriminate|intros [|]; discriminate].
Qed.

(** X18: the editor intercepts a key exactly when Ctrl or Cmd is held and
    the key is b, i or u in either case, and then issues bold, italic or
    underline; every other key press is let through. *)
Theorem onKeyDown_shortcuts (e : KeyboardEvent) (command : string) :
  onKeyDown e = Some command <->
  (ctrlKey e = true \/ metaKey e = true)
  /\ ((key e = "b" \/ key e = "B") /\ command = "bold"
      \/ (key e = "i" \/ key e = "I") /\ command = "italic"
      \/ (key e = "u" \/ key e = "U") /\ command = "underline").
Proof.
  unfold onKeyDown. destruct e as [ctrl meta k]. cbn [ctrlKey metaKey key].
  pose proof (toLowerCase_letter k "b" "B") as Hb.
  pose proof (toLowerCase_letter k "i" "I") as Hi.
  pose proof (toLowerCase_letter k "u" "U") as Hu.
  destruct (String.eqb_spec (toLowerCase k) "b") as [Eb|Eb];
    [|destruct (String.eqb_spec (toLowerCase k) "i") as [Ei|Ei];
      [|destruct (String.eqb_spec (toLowerCase k) "u") as [Eu|Eu]]].
  - apply Hb in Eb; [|tauto].
    destruct ctrl, meta; cbn; split;
      try (intros [= <-]; split; [auto|left; split; [exact Eb|reflexivity]]);
      try discriminate;
      try (intros [[|] _]; discriminate).
    all: intros [_ [[_ ->]|[[Hk _]|[Hk _]]]]; try reflexivity;
      exfalso; destruct Eb as [->| ->], Hk as [|]; discriminate.
  - apply Hi in Ei; [|tauto].
    destruct ctrl, meta; cbn; split;
      try (intros [= <-]; split; [auto|right; left; split; [exact Ei|reflexivity]]);
      try discriminate;
      try (intros [[|] _]; discriminate).
    all: intros [_ [[Hk _]|[[_ ->]|[Hk _]]]]; try reflexivity;
      exfalso; destruct Ei as [->| ->], Hk as [|]; discriminate.
  - apply Hu in Eu; [|tauto].
    destruct ctrl, meta; cbn; split;
      try (intros [= <-]; split; [auto|right; right; split; [exact Eu|reflexivity]]);
      try discriminate;
      try (intros [[|] _]; discriminate).
    all: intros [_ [[Hk _]|[[Hk _]|[_ ->]]]]; try reflexivity;
      exfalso; destruct Eu as [->| ->], Hk as [|]; discriminate.
  - assert (forall c, onKeyDown (mkKey ctrl meta k) <> Some c) as Hnone.
    { intros c. unfold onKeyDown. cbn [ctrlKey metaKey key].
      destruct (ctrl || meta); [|discriminate].
      destruct (String.eqb_spec (toLowerCase k) "b"); [contradiction|].
      destruct (String.eqb_spec (toLowerCase k) "i"); [contradiction|].
      destruct (String.eqb_spec (toLowerCase k) "u"); [contradiction|].
      discriminate. }
    split.
    + destruct (ctrl || meta); discriminate.
    + intros [_ [[Hk _]|[[Hk _]|[Hk _]]]]; exfalso.
      * apply Eb, Hb; tauto.
      * apply Ei, Hi; tauto.
      * apply Eu, Hu; tauto.
Qed.

Example onKeyDown_examples :
  onKeyDown (mkKey true false "B") = Some "bold"
  /\ onKeyDown (mkKey false true "u") = Some "underline"
  /\ onKeyDown (mkKey false false "b") = None
  /\ onKeyDown (mkKey true false "Enter") = None.
Proof. repeat split. Qed.

(* --------------------------------------------------------------------- *)
(** ** The editing panel against the preview                              *)
(* --------------------------------------------------------------------- *)




(** X20: a link of the preview opens the url of a button that is shown, in
    a new tab; the url of a hidden button is never opened. *)
Theorem render_links (format : Date -> string -> string) (e : Env)
    (s : FeedbackState) (url target : string) :
  fires (view format e s) (WindowOpen url target) ->
  target = "_blank"
  /\ exists n, Button.show (get_button n (env_data e)) = true
               /\ url = Button.url (get_button n (env_data e)).
Proof.
  intros Hf. apply fires_view in Hf as [Hin|(value & [=] & _)].
  unfold attached in Hin. rewrite !in_app_iff in Hin.
  destruct (Button.show (button1 (env_data e))) eqn:H1,
    (Button.show (button2 (env_data e))) eqn:H2,
    (showRating s), (showFeedbackModal s), (feedbackType s), (isRecording s),
    (ToBoolean (JsString (trim (textFeedback s))));
    simpl in Hin;
    repeat match type of Hin with
           | _ \/ _ => destruct Hin as [Hin|Hin]
           | False => contradiction
           | _ = _ => first [discriminate Hin | injection Hin as <- <-]
           end;
    (split; [reflexivity|]);
    first [ exists One; split; [exact H1|reflexivity]
          | exists Two; split; [exact H2|reflexivity] ].
Qed.

Lemma render_links_witness :
  "_blank" = "_blank"
  /\ exists n, Button.show (get_button n (defaultData 0%Z)) = true
               /\ "#" = Button.url (get_button n (defaultData 0%Z)).
Proof.
  apply (render_links (fun _ _ => "December 25, 2024")
           (mkEnv mobile true (defaultData 0%Z)) initialFeedback "#" "_blank").
  apply fires_click. vm_compute. tauto.
Defined.

(* --------------------------------------------------------------------- *)
(** ** What a mount cannot produce                                        *)
(* --------------------------------------------------------------------- *)

Lemma spread_string_nonempty (x : option string) (dflt : string) :
  dflt <> "" -> spread_string x dflt <> "".
Proof. intros H. now destruct x as [[|c s]|]. Qed.

(** X21: whatever the seed, the document the component mounts with has no
    blank text: logo, title, description, resource URL and the text, url and
    colour of both buttons are non-empty, because an empty string in the
    seed falls back to the default; and both buttons are shown. *)
Theorem initialState_no_blank (sink : bool) (seed : option Initial.t) (now : Date) :
  let data := initialState (mkProps sink seed) now in
  logo data <> "" /\ title data <> "" /\ description data <> ""
  /\ resourceUrl data <> ""
  /\ (forall n,
         Button.show (get_button n data) = true
         /\ Button.text (get_button n data) <> ""
         /\ Button.url (get_button n data) <> ""
         /\ Button.color (get_button n data) <> "").
Proof.
  intros data. subst data. unfold initialState. cbn [initialData].
  destruct seed as [i|].
  - unfold mergeInitialData, mergeButton.
    cbn [logo title description resourceUrl].
    repeat split; try (apply spread_string_nonempty; discriminate).
    all: destruct n; cbn; try reflexivity;
      apply spread_string_nonempty; discriminate.
  - repeat split; try discriminate; destruct n; cbn;
      first [reflexivity|discriminate].
Qed.
